(** * run_swarm.py: a shallow embedding and its verified properties

    The program is a wrapper script: it fetches one set of reads into a
    per-run temporary folder, normalises it, runs the clustering tool on it
    and hands the results to their destination.  Every action on the outside
    world goes through a child process or a file-system call, so the
    embedding is a state-and-exception monad over a [World] made of
    - the file system, a finite map from path names to nodes,
    - the records handed to [logging],
    - the history of the child processes started so far, and
    - the room left on the interpreter's stack for [run_cmds] to call
      itself.
    What a child process does is not in the script: it is the parameter
    [tool] of the section below.  The script is read as the Python 2 program
    its first line asks for: the pipes of a child process give [str], and
    the type of an exception prints as [<type 'exceptions.X'>]. *)

From Stdlib Require Import ZArith String Ascii List Bool Lia.
From stdpp Require Import base gmap strings list fin_maps pretty sorting.

Local Open Scope Z_scope.

(** ** Python strings *)

Module Py.

(** [s.startswith(p)] *)
Definition startswith (p s : string) : bool := String.prefix p s.

(** [s.startswith((p1, p2, ...))] *)
Definition startswith_any (ps : list string) (s : string) : bool :=
  existsb (fun p => startswith p s) ps.

(** [s[n:]] for [n >= 0] *)
Fixpoint drop (n : nat) (s : string) : string :=
  match n, s with
  | O, _ => s
  | S _, EmptyString => EmptyString
  | S n', String _ s' => drop n' s'
  end.

(** [s[:n]] for [n >= 0] *)
Fixpoint take (n : nat) (s : string) : string :=
  match n, s with
  | O, _ => EmptyString
  | S _, EmptyString => EmptyString
  | S n', String c s' => String c (take n' s')
  end.

(** [s.endswith(suf)] *)
Definition endswith (suf s : string) : bool :=
  (String.length suf <=? String.length s)%nat
  && String.eqb (drop (String.length s - String.length suf) s) suf.

(** [s[:-n]] for [n > 0]: all but the last [n] characters *)
Definition drop_last (n : nat) (s : string) : string :=
  take (String.length s - n) s.

(** [s[-1]]; [None] stands for the IndexError on the empty string *)
Fixpoint last_char (s : string) : option ascii :=
  match s with
  | EmptyString => None
  | String c EmptyString => Some c
  | String _ s' => last_char s'
  end.

(** [s.split(c)] for a separator of one character: never the empty list *)
Fixpoint split_char (c : ascii) (s : string) : list string :=
  match s with
  | EmptyString => [EmptyString]
  | String a s' =>
      if Ascii.eqb a c then EmptyString :: split_char c s'
      else match split_char c s' with
           | [] => [String a EmptyString]
           | w :: ws => String a w :: ws
           end
  end.

(** [s.split(sep, 1)[0]]: the text before the first occurrence of [sep],
    all of [s] when there is none *)
Fixpoint before_first (sep s : string) : string :=
  if String.prefix sep s then EmptyString
  else match s with
       | EmptyString => EmptyString
       | String a s' => String a (before_first sep s')
       end.

(** [sep.join(ws)] *)
Definition join (sep : string) (ws : list string) : string :=
  String.concat sep ws.

(** [x in [a, b, ...]] on strings and on characters *)
Definition in_strs (x : string) (l : list string) : bool :=
  existsb (String.eqb x) l.
Definition in_chars (x : ascii) (l : list ascii) : bool :=
  existsb (Ascii.eqb x) l.

(** ["{}".format(n)] for an int *)
Definition str_int (n : Z) : string := pretty n.

(** [os.path.join(a, b)] (posixpath) *)
Definition path_join (a b : string) : string :=
  if startswith "/" b then b
  else if String.eqb a "" || endswith "/" a then a +:+ b
  else a +:+ "/" +:+ b.

End Py.

(** ** The world outside the script *)

(** A file-system entry. *)
Inductive node : Type :=
| File (content : string)
| Dir
| Symlink (target : string).

(** One child process, as the script started it: the argument vector and
    the file its standard output was sent to, if any. *)
Record spawn : Type := Spawn { sp_argv : list string; sp_stdout : option string }.

(** [log] is what the handlers of the root logger were given, record by
    record: the text of the console and, once the main program has attached
    its FileHandler, the text appended to the log file.  The log file is in
    [fs] under its name, so that it can be listed, compressed, moved and
    removed; the records in it are not repeated there.

    [stack_room] is the number of calls of [run_cmds] from within
    [run_cmds] that still fit on the interpreter's stack: CPython refuses a
    call that would pass [sys.getrecursionlimit()] frames (1000, which the
    script does not change) with a RuntimeError. *)
Record World : Type := mkWorld {
  fs : gmap string node;
  log : list string;
  spawned : list spawn;
  stack_room : nat
}.

(** What a child process leaves behind: the file system after it, its exit
    code, and what it wrote to standard output and to standard error. *)
Record ProcOut : Type := mkProcOut {
  p_fs : gmap string node;
  p_code : Z;
  p_out : string;
  p_err : string
}.

(** ** Exceptions and the process exit status *)

Inductive exn : Type :=
| AssertionError (msg : string)
| Exception (msg : string)
| OSError (msg : string)
| IOError (msg : string)
| ShutilError (msg : string)
| IndexError (msg : string)
| RuntimeError (msg : string)
| SystemExit (code : exit_arg)
(** The argument of [sys.exit]: nothing, an int, or any other object (here
    always an exception instance). *)
with exit_arg : Type :=
| ExitNone
| ExitInt (n : Z)
| ExitObj (e : exn).

(** [str(e)] *)
Fixpoint exn_str (e : exn) : string :=
  match e with
  | AssertionError m | Exception m | OSError m | IOError m
  | ShutilError m | IndexError m | RuntimeError m => m
  | SystemExit c =>
      match c with
      | ExitNone => "None"
      | ExitInt n => pretty n
      | ExitObj e' => exn_str e'
      end
  end.

(** ["{}".format(type(e))] under Python 2 *)
Definition exn_type_repr (e : exn) : string :=
  match e with
  | AssertionError _ => "<type 'exceptions.AssertionError'>"
  | Exception _ => "<type 'exceptions.Exception'>"
  | OSError _ => "<type 'exceptions.OSError'>"
  | IOError _ => "<type 'exceptions.IOError'>"
  | ShutilError _ => "<class 'shutil.Error'>"
  | IndexError _ => "<type 'exceptions.IndexError'>"
  | RuntimeError _ => "<type 'exceptions.RuntimeError'>"
  | SystemExit _ => "<type 'exceptions.SystemExit'>"
  end.

Inductive outcome (A : Type) : Type :=
| Ok (a : A)
| Raised (e : exn).
Arguments Ok {A} a.
Arguments Raised {A} e.

(** The monad of the script: state passing over [World], with exceptions.
    The world survives an exception (what was written stays written). *)
Definition M (A : Type) : Type := World -> World * outcome A.

Definition ret {A} (a : A) : M A := fun w => (w, Ok a).
Definition raise {A} (e : exn) : M A := fun w => (w, Raised e).
Definition bind {A B} (m : M A) (k : A -> M B) : M B :=
  fun w => match m w with
           | (w', Ok a) => k a w'
           | (w', Raised e) => (w', Raised e)
           end.
(** [try: m  except: h] with a bare [except], which catches everything;
    the handler is given the exception ([sys.exc_info()]). *)
Definition try_except {A} (m : M A) (h : exn -> M A) : M A :=
  fun w => match m w with
           | (w', Ok a) => (w', Ok a)
           | (w', Raised e) => h e w'
           end.

Declare Scope py_scope.
Delimit Scope py_scope with py.
Notation "'do' x <- m ; k" := (bind m (fun x => k))
  (at level 10, x name, m at level 100, k at level 200) : py_scope.
Notation "m ;; k" := (bind m (fun _ => k))
  (at level 100, k at level 200, right associativity) : py_scope.
Local Open Scope py_scope.

(** [for x in l: body x] *)
Fixpoint for_each {A} (l : list A) (body : A -> M unit) : M unit :=
  match l with
  | [] => ret tt
  | x :: l' => body x ;; for_each l' body
  end.

(** [assert c, msg] *)
Definition py_assert (c : bool) (msg : string) : M unit :=
  if c then ret tt else raise (AssertionError msg).

(** [logging.info(line)]: the root logger is at level INFO and both of its
    handlers take every record.  The record goes to [log]; see [World] for
    what that stands for. *)
Definition logging_info (line : string) : M unit :=
  fun w => (mkWorld (fs w) (log w ++ [line]) (spawned w) (stack_room w), Ok tt).

Definition get_fs : M (gmap string node) := fun w => (w, Ok (fs w)).
Definition put_fs (f : gmap string node) : M unit :=
  fun w => (mkWorld f (log w) (spawned w) (stack_room w), Ok tt).

Definition with_room (k : nat) (w : World) : World :=
  mkWorld (fs w) (log w) (spawned w) k.

(** A call of a function from within itself: it takes one frame of the
    stack for as long as it runs, whether it returns or raises, and is
    refused when there is none. *)
Definition nested {A} (m : M A) : M A :=
  fun w =>
    match stack_room w with
    | O => (w, Raised (RuntimeError "maximum recursion depth exceeded"))
    | S k => let (w', o) := m (with_room k w) in (with_room (stack_room w) w', o)
    end.

(** ** File-system calls

    Path names are taken literally (two names are the same file only when
    they are the same string).  The calls that read ([exists], [stat],
    [listdir], the source of a copy) follow a symbolic link one step when
    it is the last component.  [open] and [mkdir] put their entry at the
    name they are given; [copyfile] first asks for the directory the copy
    goes into. *)

Module Os.

Definition with_slash (d : string) : string :=
  if Py.endswith "/" d then d else d +:+ "/".

(** [k] is [d] itself or lies below it *)
Definition under (d k : string) : bool :=
  String.eqb k d || Py.startswith (with_slash d) k.

Definition has_slash (s : string) : bool :=
  match String.index 0 "/" s with Some _ => true | None => false end.

(** The name of [k] inside directory [d], when [k] is a direct entry of it *)
Definition entry_name (d k : string) : option string :=
  if Py.startswith (with_slash d) k then
    let n := Py.drop (String.length (with_slash d)) k in
    if String.eqb n "" || has_slash n then None else Some n
  else None.

Definition follow (f : gmap string node) (p : string) : option node :=
  match f !! p with
  | Some (Symlink t) => f !! t
  | o => o
  end.

(** [os.path.exists(p)] *)
Definition path_exists (p : string) : M bool :=
  fun w => (w, Ok (match follow (fs w) p with Some _ => true | None => false end)).

(** [os.mkdir(p)] *)
Definition mkdir (p : string) : M unit :=
  do f <- get_fs;
  match f !! p with
  | Some _ => raise (OSError ("[Errno 17] File exists: '" +:+ p +:+ "'"))
  | None => put_fs (<[p := Dir]> f)
  end.

(** The names in directory [d], in the order the directory gives them *)
Definition entries (f : gmap string node) (d : string) : list string :=
  omap (fun kv => entry_name d (fst kv)) (map_to_list f).

(** [os.listdir(p)] *)
Definition listdir (p : string) : M (list string) :=
  do f <- get_fs;
  if String.eqb p "" then
    raise (OSError "[Errno 2] No such file or directory: ''")
  else match follow f p with
       | Some Dir => ret (entries f p)
       | Some _ => raise (OSError ("[Errno 20] Not a directory: '" +:+ p +:+ "'"))
       | None => raise (OSError ("[Errno 2] No such file or directory: '" +:+ p +:+ "'"))
       end.

(** [os.unlink(p)] *)
Definition unlink (p : string) : M unit :=
  do f <- get_fs;
  match f !! p with
  | Some Dir => raise (OSError ("[Errno 21] Is a directory: '" +:+ p +:+ "'"))
  | Some _ => put_fs (delete p f)
  | None => raise (OSError ("[Errno 2] No such file or directory: '" +:+ p +:+ "'"))
  end.

(** [os.stat(p).st_size] *)
Definition stat_size (p : string) : M Z :=
  do f <- get_fs;
  match follow f p with
  | Some (File c) => ret (Z.of_nat (String.length c))
  | Some _ => ret 4096
  | None => raise (OSError ("[Errno 2] No such file or directory: '" +:+ p +:+ "'"))
  end.

(** [open(p, "wt")]: the file is created, or emptied when it is there *)
Definition open_wt (p : string) : M unit :=
  do f <- get_fs;
  match f !! p with
  | Some Dir => raise (IOError ("[Errno 21] Is a directory: '" +:+ p +:+ "'"))
  | _ => put_fs (<[p := File ""]> f)
  end.

(** [open(p, "a")]: the file is created when it is not there *)
Definition open_a (p : string) : M unit :=
  do f <- get_fs;
  match f !! p with
  | Some Dir => raise (IOError ("[Errno 21] Is a directory: '" +:+ p +:+ "'"))
  | Some _ => ret tt
  | None => put_fs (<[p := File ""]> f)
  end.

(** What a process whose standard output is the open file [p] wrote there *)
Definition write_out (p content : string) : M unit :=
  do f <- get_fs; put_fs (<[p := File content]> f).

(** [os.path.dirname(p)], but for the root, which comes out empty: the
    text before the last slash *)
Definition dirname (p : string) : string :=
  Py.join "/" (removelast (Py.split_char "/" p)).

(** What [open(p, "wb")] says about the place of [p] before it looks at
    [p] itself: the directory [p] goes into has to be there (the root and
    the current directory always are), and a name that ends in a slash, in
    [.] or in [..] is the name of a directory. *)
Definition place_error (f : gmap string node) (p : string) : option string :=
  let d := dirname p in
  let name := List.last (Py.split_char "/" p) "" in
  match (if String.eqb d "" then Some Dir else follow f d) with
  | None => Some ("[Errno 2] No such file or directory: '" +:+ p +:+ "'")
  | Some Dir =>
      if Py.in_strs name [""; "."; ".."]
      then Some ("[Errno 21] Is a directory: '" +:+ p +:+ "'")
      else None
  | Some _ => Some ("[Errno 20] Not a directory: '" +:+ p +:+ "'")
  end.

(** [shutil.copyfile(src, dst)]: [src] is opened for reading, then [dst]
    for writing. *)
Definition copyfile (src dst : string) : M unit :=
  do f <- get_fs;
  if String.eqb src dst then
    raise (ShutilError ("`" +:+ src +:+ "` and `" +:+ dst +:+ "` are the same file"))
  else match follow f src with
       | Some (File c) =>
           match place_error f dst with
           | Some msg => raise (IOError msg)
           | None => open_wt dst ;; write_out dst c
           end
       | Some _ => raise (IOError ("[Errno 21] Is a directory: '" +:+ src +:+ "'"))
       | None => raise (IOError ("[Errno 2] No such file or directory: '" +:+ src +:+ "'"))
       end.

(** [shutil.rmtree(p)]: refuses a symbolic link and what is not a
    directory; otherwise [p] goes with everything below it *)
Definition rmtree (p : string) : M unit :=
  do f <- get_fs;
  match f !! p with
  | Some Dir => put_fs (filter (fun kv => under p (fst kv) = false) f)
  | Some (Symlink _) => raise (OSError "Cannot call rmtree on a symbolic link")
  | Some (File _) => raise (OSError ("[Errno 20] Not a directory: '" +:+ p +:+ "'"))
  | None => raise (OSError ("[Errno 2] No such file or directory: '" +:+ p +:+ "'"))
  end.

End Os.

(** ** The script *)

(** The value of the local variables [stdout] and [stderr] of [run_cmds]
    after [communicate()]: captured text, [None] for a stream that was not
    piped, or the [False] the script stores when the output went to a file. *)
Inductive captured : Type :=
| PyStr (s : string)
| PyNone
| PyFalse.

(** [if v:] *)
Definition truthy (v : captured) : bool :=
  match v with
  | PyStr s => negb (String.eqb s "")
  | PyNone | PyFalse => false
  end.

(** What a call of [run_cmds] hands back to its caller. *)
Inductive retval : Type :=
| RetNone
| RetPair (exitcode : Z) (output : captured).

Definition newline : ascii := "010"%char.

Section Script.

(** The child processes.  [tool n argv out f] is what the [n]-th process
    of the run does when started with argument vector [argv], its standard
    output sent to [out] ([None]: the pipe of the script), on file system
    [f]. *)
Variable tool : nat -> list string -> option string -> gmap string node -> ProcOut.

(** [traceback.format_tb] of the exception being handled. *)
Variable format_tb : exn -> list string.

(** [str(uuid.uuid4())[:8]] and the formatted [time.time() - start_time]
    of this run. *)
Variable uuid8 : string.
Variable elapsed : string.

(** [subprocess.Popen(argv, stdout=...)] followed by [communicate()] and
    [wait()]: the process runs to its end on the current file system. *)
Definition Popen (argv : list string) (out : option string) : M ProcOut :=
  fun w =>
    let r := tool (length (spawned w)) argv out (fs w) in
    (mkWorld (p_fs r) (log w) (spawned w ++ [Spawn argv out]) (stack_room w), Ok r).

(** [with open(path, "wt") as fo: Popen(argv, stdout=fo)] and the wait for
    the process: its standard output is the content of [path]. *)
Definition Popen_to (argv : list string) (path : string) : M ProcOut :=
  Os.open_wt path ;;
  do r <- Popen argv (Some path);
  Os.write_out path (p_out r) ;;
  ret r.

(** Lines 19-31 of [run_cmds]: start the process, wait for it, and bind
    [exitcode], [stdout] and [stderr]. *)
Definition communicate (commands : list string) (stdout : option string)
  : M (Z * captured * captured) :=
  match stdout with
  | None =>
      do r <- Popen commands None;
      ret (p_code r, PyStr (p_out r), PyNone)
  | Some path =>
      do r <- Popen_to commands path;
      ret (p_code r, PyFalse, PyStr (p_err r))
  end.

(** [if v: logging.info(title); for line in v.split('\n'): logging.info(line)]
    (Python 2: what [communicate()] returns is a [str]). *)
Definition log_stream (title : string) (v : captured) : M unit :=
  if truthy v then
    logging_info title ;;
    match v with
    | PyStr s => for_each (Py.split_char newline s) logging_info
    | _ => ret tt
    end
  else ret tt.

(** Lines 17-39 of [run_cmds]: log the command, run it once, log what was
    captured; the value is [exitcode]. *)
Definition attempt (commands : list string) (stdout : option string) : M Z :=
  logging_info "Commands:" ;;
  logging_info (Py.join " " commands) ;;
  do r <- communicate commands stdout;
  let '(exitcode, stdout_v, stderr_v) := r in
  log_stream "Standard output of subprocess:" stdout_v ;;
  log_stream "Standard error of subprocess:" stderr_v ;;
  ret exitcode.

(** Lines 46-50 of [run_cmds]: the [elif] and the [else] of the check of
    the exit code. *)
Definition settle (exitcode : Z) (catchExcept : bool) : M retval :=
  if negb (exitcode =? 0) && catchExcept then
    logging_info ("Exit code was " +:+ Py.str_int exitcode
                  +:+ ", but we will continue anyway") ;;
    ret RetNone
  else
    py_assert (exitcode =? 0) ("Exit code " +:+ Py.str_int exitcode) ;;
    ret RetNone.

(** [run_cmds(commands, retry, catchExcept, stdout)], by recursion on the
    retry budget: [retry > 0] is the successor case.  The recursive call
    is [run_cmds(commands, retry=retry - 1)], one frame further up the
    stack, and the function has no [return] statement. *)
Fixpoint run_cmds_from (retry : nat) (commands : list string)
    (catchExcept : bool) (stdout : option string) {struct retry} : M retval :=
  do exitcode <- attempt commands stdout;
  match retry with
  | S retry' =>
      if negb (exitcode =? 0) then
        logging_info ("Exit code " +:+ Py.str_int exitcode +:+ ", retrying "
                      +:+ Py.str_int (Z.of_nat retry) +:+ " more times") ;;
        nested (run_cmds_from retry' commands false None) ;;
        ret RetNone
      else settle exitcode catchExcept
  | O => settle exitcode catchExcept
  end.

(** [retry] is a Python int; [retry > 0] is all the script asks of it. *)
Definition run_cmds (commands : list string) (retry : Z)
    (catchExcept : bool) (stdout : option string) : M retval :=
  run_cmds_from (Z.to_nat retry) commands catchExcept stdout.

(** [run_cmds(commands)] with the defaults *)
Definition run_cmds0 (commands : list string) : M retval :=
  run_cmds commands 0 false None.

(** [return_results(fp, output_folder, gzip)] *)
Definition return_results (fp output_folder : string) (gzip : bool) : M unit :=
  do fp <- (if gzip then run_cmds0 ["gzip"; fp] ;; ret (fp +:+ ".gz")
            else ret fp);
  if Py.startswith "s3://" output_folder then
    run_cmds0 ["aws"; "s3"; "cp"; "--quiet"; "--sse"; "AES256"; fp; output_folder] ;;
    ret tt
  else
    run_cmds0 ["mv"; fp; output_folder] ;;
    ret tt.

(** [sys.exit(arg)] *)
Definition sys_exit {A} (arg : exit_arg) : M A := raise (SystemExit arg).

(** [exit_and_clean_up(temp_folder)], called from an [except] clause:
    [exc] is the exception being handled, the [exc_value] of
    [sys.exc_info()]. *)
Definition exit_and_clean_up {A} (exc : exn) (temp_folder : string) : M A :=
  logging_info "There was an unexpected failure" ;;
  for_each (format_tb exc) logging_info ;;
  logging_info ("Removing temporary folder: " +:+ temp_folder) ;;
  Os.rmtree temp_folder ;;
  logging_info ("Exit type: " +:+ exn_type_repr exc) ;;
  logging_info ("Exit code: " +:+ exn_str exc) ;;
  sys_exit (ExitObj exc).

(** [set_up_sra_cache_folder(temp_folder)] *)
Definition set_up_sra_cache_folder (temp_folder : string) : M unit :=
  logging_info ("Setting up fastq-dump cache within " +:+ temp_folder) ;;
  for_each ["/root/ncbi"; "/root/ncbi/public"] (fun path =>
    do e <- Os.path_exists path;
    if negb e then Os.mkdir path else ret tt) ;;
  do e <- Os.path_exists "/root/ncbi/public/sra";
  (if e then Os.rmtree "/root/ncbi/public/sra" else ret tt) ;;
  let temp_cache := Py.path_join temp_folder "sra" in
  do e <- Os.path_exists temp_cache;
  py_assert (negb e) "" ;;
  Os.mkdir temp_cache ;;
  run_cmds0 ["ln"; "-s"; "-f"; temp_cache; "/root/ncbi/public/sra"] ;;
  do e <- Os.path_exists "/root/ncbi/public/sra";
  py_assert e "".

(** [fp.startswith(accession) and fp.endswith("fastq")] *)
Definition sra_part (accession fp : string) : bool :=
  Py.startswith accession fp && Py.endswith "fastq" fp.

(** The body of the loop "Remove the temp files" of [get_sra]. *)
Definition remove_part (accession temp_folder fp : string) : M unit :=
  if sra_part accession fp then
    let fp := Py.path_join temp_folder fp in
    logging_info ("Removing " +:+ fp) ;;
    Os.unlink fp
  else ret tt.

(** Lines 184-201 of [get_sra]: the cache folder, [prefetch], and the
    export by [fastq-dump --split-files] into the temporary folder. *)
Definition sra_download (accession temp_folder : string) : M unit :=
  set_up_sra_cache_folder temp_folder ;;
  logging_info ("Downloading " +:+ accession +:+ " from SRA") ;;
  let local_path := Py.path_join temp_folder (accession +:+ ".fastq") in
  logging_info ("Local path: " +:+ local_path) ;;
  logging_info "Downloading via fastq-dump" ;;
  run_cmds0 ["prefetch"; accession] ;;
  run_cmds0 ["fastq-dump"; "--split-files"; "--outdir"; temp_folder; accession] ;;
  ret tt.

(** Lines 203-235 of [get_sra]: check that reads files are there,
    concatenate them, remove them and the cached archive, and give the
    combined file its name. *)
Definition sra_combine (accession temp_folder : string) : M string :=
  let local_path := Py.path_join temp_folder (accession +:+ ".fastq") in
  do names <- Os.listdir temp_folder;
  py_assert (existsb (sra_part accession) names)
            ("File could not be downloaded from SRA: " +:+ accession) ;;
  logging_info "Concatenating output files" ;;
  Popen_to ["/bin/sh"; "-c"; "cat " +:+ temp_folder +:+ "/" +:+ accession +:+ "*fastq"]
           (local_path +:+ ".temp") ;;
  do names <- Os.listdir temp_folder;
  for_each names (remove_part accession temp_folder) ;;
  let cache_fp := "/root/ncbi/public/sra/" +:+ accession +:+ ".sra" in
  do e <- Os.path_exists cache_fp;
  (if e then logging_info ("Removing " +:+ cache_fp) ;; Os.unlink cache_fp
   else ret tt) ;;
  run_cmds0 ["mv"; local_path +:+ ".temp"; local_path] ;;
  logging_info ("Done fetching " +:+ accession) ;;
  ret local_path.

(** [get_sra(accession, temp_folder)] *)
Definition get_sra (accession temp_folder : string) : M string :=
  sra_download accession temp_folder ;;
  sra_combine accession temp_folder.

(** The branches of the [if]/[elif] chain of [get_reads_from_url], named
    by what their bodies do. *)
Inductive backend : Type :=
| LocalCopy
| ObjectStore
| UrlFetch
| SequenceArchive
| Unrecognized.

(** The conditions of that chain, in its order; they read [input_str]
    only. *)
Definition backend_of (input_str : string) : backend :=
  if negb (Py.startswith_any ["s3://"; "sra://"; "ftp://"; "https://"; "http://"]
                             input_str) then LocalCopy
  else if Py.startswith "s3://" input_str then ObjectStore
  else if Py.in_strs (Py.before_first "://" input_str) ["ftp"; "https"; "http"]
       then UrlFetch
  else if Py.startswith "sra://" input_str then SequenceArchive
  else Unrecognized.

(** [input_str.split('/')[-1]] *)
Definition basename (input_str : string) : string :=
  List.last (Py.split_char "/" input_str) "".

(** Lines 100-139 of [get_reads_from_url]: bring the reads into the
    temporary folder; the value is [local_path]. *)
Definition fetch_reads (input_str temp_folder : string) : M string :=
  logging_info ("Getting reads from " +:+ input_str) ;;
  let filename := basename input_str in
  let local_path := Py.path_join temp_folder filename in
  logging_info ("Filename: " +:+ filename) ;;
  logging_info ("Local path: " +:+ local_path) ;;
  match backend_of input_str with
  | LocalCopy =>
      logging_info "Treating as local path" ;;
      do e <- Os.path_exists input_str;
      py_assert e ("Input file does not exist (" +:+ input_str +:+ ")") ;;
      logging_info "Making a copy in the temporary folder" ;;
      Os.copyfile input_str local_path ;;
      ret local_path
  | ObjectStore =>
      logging_info "Getting reads from S3" ;;
      run_cmds0 ["aws"; "s3"; "cp"; "--quiet"; "--sse"; "AES256";
                 input_str; temp_folder] ;;
      ret local_path
  | UrlFetch =>
      logging_info "Getting reads from FTP" ;;
      run_cmds0 ["wget"; "-P"; temp_folder; input_str] ;;
      ret local_path
  | SequenceArchive =>
      let accession := filename in
      logging_info ("Getting reads from SRA: " +:+ accession) ;;
      get_sra accession temp_folder
  | Unrecognized =>
      raise (Exception ("Did not recognize prefix for input: " +:+ input_str))
  end.

(** Lines 141-154 of [get_reads_from_url]: unzip, then convert FASTQ to
    FASTA. *)
Definition normalize_reads (local_path : string) : M string :=
  do local_path <-
    (if Py.endswith ".gz" local_path then
       logging_info ("Decompressing " +:+ local_path) ;;
       run_cmds0 ["pigz"; "-d"; local_path] ;;
       ret (Py.drop_last 3 local_path)
     else ret local_path);
  match Py.last_char local_path with
  | None => raise (IndexError "string index out of range")
  | Some c =>
      if Py.in_chars c ["q"%char; "Q"%char] then
        logging_info "Converting to FASTA" ;;
        let fasta_fp := Py.drop_last 1 local_path +:+ "a" in
        run_cmds0 ["fastq_to_fasta"; "-i"; local_path; "-o"; fasta_fp] ;;
        ret fasta_fp
      else ret local_path
  end.

(** [get_reads_from_url(input_str, temp_folder)] *)
Definition get_reads_from_url (input_str temp_folder : string) : M string :=
  do local_path <- fetch_reads input_str temp_folder;
  normalize_reads local_path.

(** The parsed command line. *)
Record Args : Type := mkArgs {
  a_input : string;
  a_sample_name : string;
  a_output_folder : string;
  a_differences : Z;
  a_min_mass : Z;
  a_keep_abundance : bool;
  a_temp_folder : string
}.

Definition workspace (args : Args) : string :=
  Py.path_join (a_temp_folder args) uuid8.
Definition fasta_out (args : Args) : string :=
  Py.path_join (workspace args) (a_sample_name args +:+ ".swarm.fasta").
Definition csv_out (args : Args) : string :=
  Py.path_join (workspace args) (a_sample_name args +:+ ".swarm.csv").
Definition log_fp (args : Args) : string :=
  Py.path_join (workspace args) (a_sample_name args +:+ ".log.txt").

(** The Swarm command line *)
Definition swarm_command (args : Args) (read_fps : string) : list string :=
  ["swarmwrapper"; "cluster"; read_fps; "-D";
   "-w"; fasta_out args; "-a"; csv_out args;
   "-d"; Py.str_int (a_differences args);
   "-M"; Py.str_int (a_min_mass args)]
  ++ (if a_keep_abundance args then ["--keep-abundance"] else []).

(** Lines 280-303: make the temporary folder, attach the log file, and
    announce the fetch. *)
Definition init_run (args : Args) : M unit :=
  let temp_folder := workspace args in
  do e <- Os.path_exists temp_folder;
  py_assert (negb e) "" ;;
  Os.mkdir temp_folder ;;
  Os.open_a (log_fp args) ;;
  logging_info "Fetching input file".

(** The body of [if __name__ == "__main__":] after the arguments are
    parsed. *)
Definition main (args : Args) : M unit :=
  let temp_folder := workspace args in
  init_run args ;;
  do read_fps <- try_except (get_reads_from_url (a_input args) temp_folder)
                            (fun exc => exit_and_clean_up exc temp_folder);
  logging_info ("FASTA output: " +:+ fasta_out args) ;;
  logging_info ("CSV output: " +:+ csv_out args) ;;
  try_except (run_cmds0 (swarm_command args read_fps))
             (fun exc => exit_and_clean_up exc temp_folder) ;;
  logging_info ("Seconds elapsed: " +:+ elapsed) ;;
  for_each [fasta_out args; csv_out args] (fun fp =>
    do e <- Os.path_exists fp;
    py_assert e "" ;;
    do size <- Os.stat_size fp;
    py_assert (0 <? size) "") ;;
  for_each [fasta_out args; csv_out args; log_fp args] (fun fp =>
    return_results fp (a_output_folder args) true).

(** The exit status of the interpreter: 0 when the script runs to its
    end; for [SystemExit] what its argument says (0 for [None], the int
    itself, and 1 for any other object, which is printed); 1 for an
    exception nobody caught. *)
Definition exit_status {A} (o : outcome A) : Z :=
  match o with
  | Ok _ => 0
  | Raised (SystemExit ExitNone) => 0
  | Raised (SystemExit (ExitInt n)) => Z.land n 255
  | Raised (SystemExit (ExitObj _)) => 1
  | Raised _ => 1
  end.

(** One run of the script: the world it leaves and its exit status. *)
Definition run_script (args : Args) (w : World) : World * Z :=
  let (w', o) := main args w in (w', exit_status o).

End Script.

(** The records [log_stream title v] adds to the log. *)
Definition stream_lines (title : string) (v : captured) : list string :=
  match v with
  | PyStr s => if truthy v then title :: Py.split_char newline s else []
  | _ => []
  end.


(** [open(path, "wt")] goes through: the place for [path], if any, is
    there, and [path] is not a directory. *)
Definition can_open (out : option string) (w : World) : Prop :=
  match out with
  | Some path => fs w !! path <> Some Dir /\ Os.place_error (fs w) path = None
  | None => True
  end.

(** A tool that fails with [code] until [N] processes have run, then
    succeeds; it touches no file. *)
Definition flaky (N : nat) (code : Z)
    : nat -> list string -> option string -> gmap string node -> ProcOut :=
  fun n _ _ f =>
    if (n <? N)%nat then mkProcOut f code "partial" "boom"
    else mkProcOut f 0 "done" "".

(** The room a call of [run_cmds] from the script finds for its retries.
    Of the 1000 frames of the interpreter a few are in use when the call is
    made, and the library calls inside [run_cmds] need a few more on top of
    the deepest one: 900 calls within each other fit, 1000 do not. *)
Definition script_room : nat := 900.

Definition empty_world : World := mkWorld ∅ [] [] script_room.

(** The world once [lines] have been logged. *)
Definition logged (lines : list string) (w : World) : World :=
  mkWorld (fs w) (log w ++ lines) (spawned w) (stack_room w).

(** The world after one run of [cmd] with its output captured. *)
Definition after_run
    (tool : nat -> list string -> option string -> gmap string node -> ProcOut)
    (cmd : list string) (w : World) : World :=
  let r := tool (length (spawned w)) cmd None (fs w) in
  mkWorld (p_fs r)
          (log w ++ ["Commands:"; Py.join " " cmd]
                 ++ stream_lines "Standard output of subprocess:" (PyStr (p_out r)))
          (spawned w ++ [Spawn cmd None])
          (stack_room w).

(** ** What the shell and the core utilities do

    The script leans on [cat] with a glob pattern and on [mv]; this is what
    they are taken to do. *)

(** The pattern [<accession>*fastq] of the shell: the star stands for any
    run of characters between the two. *)
Definition glob_part (accession name : string) : bool :=
  Py.startswith accession name
  && Py.endswith "fastq" (Py.drop (String.length accession) name).

Definition file_text (f : gmap string node) (p : string) : string :=
  match Os.follow f p with
  | Some (File c) => c
  | _ => ""
  end.

(** What [cat <dir>/<accession>*fastq] writes to its standard output: the
    shell expands the pattern in the order of the names, and [cat] writes
    the files one after the other. *)
Definition cat_glob (f : gmap string node) (dir accession : string) : string :=
  String.concat ""
    (map (fun n => file_text f (Os.with_slash dir +:+ n))
         (merge_sort String.le
            (filter (fun n => glob_part accession n = true) (Os.entries f dir)))).

(** [mv src dst]: into [dst] when it is a directory, onto it otherwise. *)
Definition mv (f : gmap string node) (src dst : string) : ProcOut :=
  match f !! src with
  | Some n =>
      let dst' := match Os.follow f dst with
                  | Some Dir => Py.path_join dst (List.last (Py.split_char "/" src) "")
                  | _ => dst
                  end in
      mkProcOut (<[dst' := n]> (delete src f)) 0 "" ""
  | None => mkProcOut f 1 "" ("mv: cannot stat '" +:+ src +:+ "': No such file or directory")
  end.

(** The shell and [cat], and [mv], are among the tools. *)
Definition cat_behaves
    (tool : nat -> list string -> option string -> gmap string node -> ProcOut)
    (dir accession : string) : Prop :=
  forall n out f,
    let r := tool n ["/bin/sh"; "-c"; "cat " +:+ dir +:+ "/" +:+ accession +:+ "*fastq"]
                  out f in
    p_fs r = f /\ p_out r = cat_glob f dir accession.

Definition mv_behaves
    (tool : nat -> list string -> option string -> gmap string node -> ProcOut) : Prop :=
  forall n src dst f, tool n ["mv"; src; dst] None f = mv f src dst.

(** ** A laboratory

    One concrete set of tools, to run the script on: the core utilities
    above, a compressor that renames, a converter that copies, an archive
    whose accession comes as two reads files, and a clustering tool that
    exits with [swarm_code] after writing [swarm_fasta] and [swarm_csv]. *)

Record lab_setup : Type := mkLab {
  swarm_code : Z;
  swarm_fasta : string;
  swarm_csv : string;
  lab_dir : string;
  lab_accession : string
}.

Definition lab (s : lab_setup)
    : nat -> list string -> option string -> gmap string node -> ProcOut :=
  fun _ argv _ f =>
    match argv with
    | ["mv"; src; dst] => mv f src dst
    | ["gzip"; fp] =>
        match f !! fp with
        | Some (File c) => mkProcOut (<[fp +:+ ".gz" := File ("gz:" +:+ c)]> (delete fp f)) 0 "" ""
        | _ => mkProcOut f 1 "" "gzip: No such file or directory"
        end
    | ["pigz"; "-d"; fp] =>
        match f !! fp with
        | Some (File c) => mkProcOut (<[Py.drop_last 3 fp := File c]> (delete fp f)) 0 "" ""
        | _ => mkProcOut f 1 "" "pigz: skipping"
        end
    | ["fastq_to_fasta"; "-i"; i; "-o"; o] =>
        match f !! i with
        | Some (File c) => mkProcOut (<[o := File (">" +:+ c)]> f) 0 "" ""
        | _ => mkProcOut f 1 "fastq_to_fasta: Cannot open input file" ""
        end
    | ["ln"; "-s"; "-f"; target; link] =>
        mkProcOut (<[link := Symlink target]> f) 0 "" ""
    | ["prefetch"; acc] =>
        mkProcOut (<["/root/ncbi/public/sra/" +:+ acc +:+ ".sra" := File "NCBI.sra"]> f) 0
                  "1) Downloading..." ""
    | ["fastq-dump"; "--split-files"; "--outdir"; dir; acc] =>
        mkProcOut (<[Py.path_join dir (acc +:+ "_2.fastq") := File "@r/2"]>
                     (<[Py.path_join dir (acc +:+ "_1.fastq") := File "@r/1"]> f))
                  0 "Read 1 spots" ""
    | ["/bin/sh"; "-c"; cmd] =>
        if String.eqb cmd ("cat " +:+ lab_dir s +:+ "/" +:+ lab_accession s +:+ "*fastq")
        then mkProcOut f 0 (cat_glob f (lab_dir s) (lab_accession s)) ""
        else mkProcOut f 127 "" "sh: not found"
    | "swarmwrapper" :: "cluster" :: _ :: "-D" :: "-w" :: fa :: "-a" :: csv :: _ =>
        mkProcOut (<[csv := File (swarm_csv s)]> (<[fa := File (swarm_fasta s)]> f))
                  (swarm_code s) "swarm" ""
    | _ => mkProcOut f 127 "" "command not found"
    end.

(** A host with the temporary root, the home of the archive cache, a reads
    file and a results folder. *)
Definition host : World :=
  mkWorld (list_to_map [("/share", Dir); ("/root", Dir); ("/out", Dir);
                        ("/data", Dir); ("/data/reads.fasta", File ">r1")])
          [] [] script_room.

Definition lab_args (input : string) : Args :=
  mkArgs input "S1" "/out" 1 1 false "/share".

Definition lab_tb (e : exn) : list string :=
  ["  File run_swarm.py, in <module>"].

Definition lab_run (s : lab_setup) (input : string) : World * Z :=
  run_script (lab s) lab_tb "ab12cd34" "12.5" (lab_args input) host.

(** Clustering goes well; clustering exits 0 with an empty CSV; clustering
    exits 3. *)
Definition lab_fine : lab_setup := mkLab 0 ">c1" "c1,5" "/share/ab12cd34" "SRR000001".
Definition lab_empty_csv : lab_setup := mkLab 0 ">c1" "" "/share/ab12cd34" "SRR000001".
Definition lab_exit_3 : lab_setup := mkLab 3 "" "" "/share/ab12cd34" "SRR000001".

(** A run on [sra://SRR000001]: the world when the fetch starts, and the
    world once [fastq-dump] has written the reads files. *)
Definition sra_start : World :=
  fst (init_run "ab12cd34" (lab_args "sra://SRR000001") host).
Definition sra_downloaded : World :=
  fst (sra_download (lab lab_fine) "SRR000001" "/share/ab12cd34" sra_start).

(** ** Notions for the statements about the main program *)

(** What the two asserts of "Make sure the output files exist" ask of one
    path: it exists, and its size is above zero. *)
Definition output_ok (f : gmap string node) (fp : string) : bool :=
  match Os.follow f fp with
  | Some (File c) => 0 <? Z.of_nat (String.length c)
  | Some _ => true
  | None => false
  end.

(** The two commands of [return_results(fp, output_folder)]. *)
Definition publish_commands (output_folder fp : string) : list (list string) :=
  [["gzip"; fp];
   if Py.startswith "s3://" output_folder
   then ["aws"; "s3"; "cp"; "--quiet"; "--sse"; "AES256"; fp +:+ ".gz"; output_folder]
   else ["mv"; fp +:+ ".gz"; output_folder]].

(** The computation never ends in a bare [Exception], the class the
    script raises for an input it does not recognise. *)
Definition no_plain_exception {A} (m : M A) : Prop :=
  forall w w' e, m w = (w', Raised e) -> forall msg, e <> Exception msg.

(** Every exception the computation can end in gives the process the exit
    status 1. *)
Definition status_one {A} (m : M A) : Prop :=
  forall w w' e, m w = (w', Raised e) -> exit_status (Raised (A := unit) e) = 1.

(** A run on [/data/reads.fasta] whose clustering leaves an empty CSV file:
    the world when the fetch starts, after the fetch, and after the
    clustering command. *)
Definition local_start : World :=
  fst (init_run "ab12cd34" (lab_args "/data/reads.fasta") host).
Definition local_fetched : World :=
  fst (get_reads_from_url (lab lab_empty_csv) "/data/reads.fasta" "/share/ab12cd34"
         local_start).
Definition local_announced : World :=
  mkWorld (fs local_fetched)
          (log local_fetched
           ++ ["FASTA output: " +:+ fasta_out "ab12cd34" (lab_args "/data/reads.fasta");
               "CSV output: " +:+ csv_out "ab12cd34" (lab_args "/data/reads.fasta")])
          (spawned local_fetched)
          (stack_room local_fetched).
Definition local_clustered : World :=
  fst (run_cmds0 (lab lab_empty_csv)
         (swarm_command "ab12cd34" (lab_args "/data/reads.fasta")
            "/share/ab12cd34/reads.fasta")
         local_announced).

(** A variant of a set of tools: whatever is started with its standard
    output sent to a file ends with [code], and with [err] on its standard
    error; what it writes, and where, is as before. *)
Definition redirected_exit (code : Z) (err : string)
    (tool : nat -> list string -> option string -> gmap string node -> ProcOut)
    : nat -> list string -> option string -> gmap string node -> ProcOut :=
  fun n argv out f =>
    match out with
    | Some _ => let r := tool n argv out f in mkProcOut (p_fs r) code (p_out r) err
    | None => tool n argv out f
    end.

(** ** Basic facts about the monad and the log *)

Section RunCmdsFacts.

Variable tool : nat -> list string -> option string -> gmap string node -> ProcOut.

Lemma for_each_logging (l : list string) (w : World) :
  for_each l logging_info w
  = (mkWorld (fs w) (log w ++ l) (spawned w) (stack_room w), Ok tt).
Proof.
  revert w; induction l as [|x l IH]; intros w.
  - destruct w; cbn. by rewrite app_nil_r.
  - cbn [for_each]. unfold bind. cbn. rewrite IH. cbn.
    by rewrite <- app_assoc.
Qed.

Lemma log_stream_spec (title : string) (v : captured) (w : World) :
  log_stream title v w
  = (mkWorld (fs w) (log w ++ stream_lines title v) (spawned w) (stack_room w), Ok tt).
Proof.
  unfold log_stream, stream_lines.
  destruct v as [s| |]; cbn [truthy].
  - destruct (negb (String.eqb s "")).
    + unfold bind. cbn. rewrite for_each_logging. cbn.
      by rewrite <- app_assoc.
    + destruct w; cbn. by rewrite app_nil_r.
  - destruct w; cbn. by rewrite app_nil_r.
  - destruct w; cbn. by rewrite app_nil_r.
Qed.

(** One attempt whose output is captured never raises. *)
Lemma attempt_None (cmd : list string) (w : World) :
  let r := tool (length (spawned w)) cmd None (fs w) in
  attempt tool cmd None w
  = (mkWorld (p_fs r)
             (log w ++ ["Commands:"; Py.join " " cmd]
                    ++ stream_lines "Standard output of subprocess:" (PyStr (p_out r)))
             (spawned w ++ [Spawn cmd None])
             (stack_room w),
     Ok (p_code r)).
Proof.
  intros r. unfold attempt, communicate, Popen.
  unfold bind, logging_info, ret. cbn.
  rewrite !log_stream_spec. cbn. subst r.
  by rewrite <- !app_assoc.
Qed.

(** One attempt whose output goes to the file [path]. *)
Lemma attempt_Some (cmd : list string) (path : string) (w : World) :
  fs w !! path <> Some Dir ->
  let r := tool (length (spawned w)) cmd (Some path) (<[path := File ""]> (fs w)) in
  attempt tool cmd (Some path) w
  = (mkWorld (<[path := File (p_out r)]> (p_fs r))
             (log w ++ ["Commands:"; Py.join " " cmd]
                    ++ stream_lines "Standard error of subprocess:" (PyStr (p_err r)))
             (spawned w ++ [Spawn cmd (Some path)])
             (stack_room w),
     Ok (p_code r)).
Proof.
  intros Hp r. unfold attempt, communicate, Popen_to, Popen, Os.open_wt, Os.write_out.
  unfold bind, logging_info, ret, get_fs, put_fs. cbn.
  destruct (fs w !! path) as [[| |]|] eqn:E; try congruence; cbn;
    rewrite !log_stream_spec; cbn; subst r;
    by rewrite <- !app_assoc.
Qed.

Lemma attempt_runs (cmd : list string) (out : option string) (w : World) :
  can_open out w ->
  exists f0 w1,
    attempt tool cmd out w = (w1, Ok (p_code (tool (length (spawned w)) cmd out f0)))
    /\ spawned w1 = spawned w ++ [Spawn cmd out]
    /\ stack_room w1 = stack_room w.
Proof.
  destruct out as [path|]; cbn [can_open]; intros Hp.
  - eexists _, _. rewrite (attempt_Some cmd path w (proj1 Hp)). cbn. repeat split.
  - eexists _, _. rewrite (attempt_None cmd w). cbn. repeat split.
Qed.

Lemma run_cmds_from_unfold (retry : nat) (cmd : list string) (c : bool)
    (out : option string) (w : World) :
  run_cmds_from tool retry cmd c out w
  = match attempt tool cmd out w with
    | (w1, Raised e) => (w1, Raised e)
    | (w1, Ok code) =>
        match retry with
        | S r =>
            if negb (code =? 0) then
              (logging_info ("Exit code " +:+ Py.str_int code +:+ ", retrying "
                             +:+ Py.str_int (Z.of_nat retry) +:+ " more times") ;;
               nested (run_cmds_from tool r cmd false None) ;;
               ret RetNone) w1
            else settle code c w1
        | O => settle code c w1
        end
    end.
Proof.
  destruct retry; cbn [run_cmds_from]; unfold bind at 1;
    destruct (attempt tool cmd out w) as [w1 [code|e]]; try reflexivity.
  by destruct (negb (code =? 0)).
Qed.

(** The retry, seen from the frame that asks for it: refused when the
    stack is full, otherwise run one frame up, after which the room is what
    it was. *)
Lemma retry_step (msg : string) (r : nat) (cmd : list string) (w1 : World) :
  (logging_info msg ;; nested (run_cmds_from tool r cmd false None) ;; ret RetNone) w1
  = match stack_room w1 with
    | O => (logged [msg] w1, Raised (RuntimeError "maximum recursion depth exceeded"))
    | S k =>
        match run_cmds_from tool r cmd false None (with_room k (logged [msg] w1)) with
        | (w', Ok _) => (with_room (stack_room w1) w', Ok RetNone)
        | (w', Raised e) => (with_room (stack_room w1) w', Raised e)
        end
    end.
Proof.
  unfold bind at 1. cbn [logging_info]. unfold bind at 1, nested at 1.
  cbn [stack_room]. fold (logged [msg] w1).
  destruct (stack_room w1) as [|k]; [reflexivity|].
  by destruct (run_cmds_from tool r cmd false None (with_room k (logged [msg] w1)))
    as [w' [v|e]].
Qed.

(** [run_cmds(commands)] with the defaults: one attempt, then the assert. *)
Lemma run_cmds0_spec (cmd : list string) (w : World) :
  run_cmds0 tool cmd w
  = (after_run tool cmd w,
     let code := p_code (tool (length (spawned w)) cmd None (fs w)) in
     if code =? 0 then Ok RetNone
     else Raised (AssertionError ("Exit code " +:+ Py.str_int code))).
Proof.
  unfold run_cmds0, run_cmds. cbn [Z.to_nat].
  rewrite run_cmds_from_unfold, attempt_None. fold (after_run tool cmd w).
  unfold settle, py_assert, bind, ret, raise. cbn zeta.
  rewrite andb_false_r. by destruct (p_code _ =? 0).
Qed.

Lemma settle_zero (c : bool) (w : World) : settle 0 c w = (w, Ok RetNone).
Proof. reflexivity. Qed.

Lemma settle_strict (code : Z) (w : World) :
  code <> 0 ->
  settle code false w = (w, Raised (AssertionError ("Exit code " +:+ Py.str_int code))).
Proof.
  intros Hc. unfold settle, py_assert, bind, raise.
  destruct (Z.eqb_spec code 0); [contradiction|reflexivity].
Qed.

Lemma settle_tolerant (code : Z) (w : World) :
  code <> 0 ->
  settle code true w
  = (logged ["Exit code was " +:+ Py.str_int code
             +:+ ", but we will continue anyway"] w,
     Ok RetNone).
Proof.
  intros Hc. unfold settle, bind, logging_info, ret.
  destruct (Z.eqb_spec code 0); [contradiction|reflexivity].
Qed.



End RunCmdsFacts.

(** ** The Command Runner: [run_cmds] *)





(** With [catchExcept=False] a command that never exits 0 makes the call
    raise, whatever the budget: the AssertionError of the last attempt, or
    the RuntimeError of a retry that no longer fits on the stack. *)
Lemma always_failing_raises
    (tool : nat -> list string -> option string -> gmap string node -> ProcOut)
    (cmd : list string) (r : nat) :
  forall (out : option string) (w : World),
    (forall n o f, p_code (tool n cmd o f) <> 0) ->
    can_open out w ->
    exists w' e,
      run_cmds_from tool r cmd false out w = (w', Raised e)
      /\ (e = RuntimeError "maximum recursion depth exceeded"
          \/ exists code, code <> 0
                          /\ e = AssertionError ("Exit code " +:+ Py.str_int code)).
Proof.
  induction r as [|r IH]; intros out w Hfail Hopen;
    destruct (attempt_runs tool cmd out w Hopen) as (f0 & w1 & Ha & _);
    rewrite run_cmds_from_unfold, Ha.
  - eexists w1, _. rewrite settle_strict by apply Hfail.
    split; [reflexivity|]. right. eexists. split; [apply Hfail|reflexivity].
  - destruct (Z.eqb_spec (p_code (tool (length (spawned w)) cmd out f0)) 0) as [E|_];
      [by apply Hfail in E|]. cbn [negb]. rewrite retry_step.
    destruct (stack_room w1) as [|k].
    + eexists _, _. split; [reflexivity|]. by left.
    + match goal with
      | |- context [run_cmds_from tool r cmd false None ?w2] =>
          destruct (IH None w2 Hfail I) as (w' & e & Hrun & He)
      end.
      eexists _, e. rewrite Hrun. split; [reflexivity|exact He].
Qed.

(** The general form of the departure from C3: with [catchExcept=True] and
    a budget above zero, a command that never exits 0 makes the call raise;
    with a budget of zero the same call returns. *)
Lemma exhausted_retries_raise
    (tool : nat -> list string -> option string -> gmap string node -> ProcOut)
    (cmd : list string) (retry : Z) (out : option string) (w : World) :
  (forall n o f, p_code (tool n cmd o f) <> 0) ->
  can_open out w ->
  (0 < retry ->
   exists w' e,
     run_cmds tool cmd retry true out w = (w', Raised e)
     /\ (e = RuntimeError "maximum recursion depth exceeded"
         \/ exists code, code <> 0
                         /\ e = AssertionError ("Exit code " +:+ Py.str_int code)))
  /\ (retry <= 0 -> exists w', run_cmds tool cmd retry true out w = (w', Ok RetNone)).
Proof.
  intros Hfail Hopen. unfold run_cmds.
  destruct (attempt_runs tool cmd out w Hopen) as (f0 & w1 & Ha & _).
  split; intros Hr.
  - destruct (Z.to_nat retry) as [|k] eqn:Hk; [lia|].
    rewrite run_cmds_from_unfold, Ha.
    destruct (Z.eqb_spec (p_code (tool (length (spawned w)) cmd out f0)) 0) as [E|_];
      [by apply Hfail in E|]. cbn [negb]. rewrite retry_step.
    destruct (stack_room w1) as [|j].
    + eexists _, _. split; [reflexivity|]. by left.
    + match goal with
      | |- context [run_cmds_from tool k cmd false None ?w2] =>
          destruct (always_failing_raises tool cmd k None w2 Hfail I)
            as (w' & e & Hrun & He)
      end.
      eexists _, e. rewrite Hrun. split; [reflexivity|exact He].
  - replace (Z.to_nat retry) with 0%nat by lia.
    rewrite run_cmds_from_unfold, Ha, settle_tolerant by apply Hfail. eauto.
Qed.

(** C3, where the script departs from it.  [run_cmds(["false"], retry=1,
    catchExcept=True)] on a command that always exits 1: the retry is
    started as [run_cmds(commands, retry=0)], so [catchExcept] is gone when
    the budget runs out, and the call raises instead of logging the warning
    and returning. *)
Theorem run_cmds_retry_forgets_catchExcept :
  let w' := fst (run_cmds (flaky 5 1) ["false"] 1 true None empty_world) in
  snd (run_cmds (flaky 5 1) ["false"] 1 true None empty_world)
    = Raised (AssertionError "Exit code 1")
  /\ length (spawned w') = 2%nat
  /\ ("Exit code was 1, but we will continue anyway" ∉ log w')
  /\ snd (run_cmds (flaky 5 1) ["false"] 0 true None empty_world) = Ok RetNone.
Proof.
  vm_compute. repeat split; try reflexivity.
  intros H. repeat (apply elem_of_cons in H as [H|H]; [discriminate H|]).
  by apply elem_of_nil in H.
Qed.





(** ** Strings *)

Lemma app_String (a : ascii) (x y : string) :
  String a x +:+ y = String a (x +:+ y).
Proof. reflexivity. Qed.

Lemma prefix_split (p s : string) :
  String.prefix p s = true -> s = p +:+ Py.drop (String.length p) s.
Proof.
  revert s; induction p as [|a p IH]; intros s H; [reflexivity|].
  destruct s as [|b s]; [discriminate|]. cbn in H.
  destruct (ascii_dec a b) as [->|]; [|discriminate].
  cbn [String.length Py.drop]. rewrite app_String. f_equal. by apply IH.
Qed.

Lemma last_char_snoc (s : string) (c : ascii) :
  Py.last_char (s +:+ String c "") = Some c.
Proof.
  induction s as [|a s IH]; [reflexivity|].
  rewrite app_String. cbn [Py.last_char]. rewrite IH.
  destruct s; reflexivity.
Qed.



(** ** The Format Normaliser: the end of [get_reads_from_url] *)



(** ** The Source Fetcher: the dispatch of [get_reads_from_url] *)

(** C2, as the spec words it, fails.  [gs://bucket/reads.fasta] has none of
    the five prefixes the script knows; the script does not refuse it as an
    unrecognised scheme but takes it for a local path: it raises the
    AssertionError of a missing input file when nothing is there, and copies
    the file into the temporary folder when something is. *)
Lemma unknown_scheme_is_local_path :
  let input := "gs://bucket/reads.fasta" in
  let there := mkWorld (<[input := File ">r1"]> {[ "/share/ab12cd34" := Dir ]}) [] []
                       script_room in
  Py.startswith_any ["s3://"; "sra://"; "ftp://"; "https://"; "http://"] input = false
  /\ backend_of input = LocalCopy
  /\ snd (get_reads_from_url (flaky 0 1) input "/share/ab12cd34" empty_world)
     = Raised (AssertionError "Input file does not exist (gs://bucket/reads.fasta)")
  /\ snd (get_reads_from_url (flaky 0 1) input "/share/ab12cd34" empty_world)
     <> Raised (Exception ("Did not recognize prefix for input: " +:+ input))
  /\ snd (get_reads_from_url (flaky 0 1) input "/share/ab12cd34" there)
     = Ok "/share/ab12cd34/reads.fasta"
  /\ fs (fst (get_reads_from_url (flaky 0 1) input "/share/ab12cd34" there))
       !! "/share/ab12cd34/reads.fasta" = Some (File ">r1").
Proof. vm_compute. repeat split; discriminate. Qed.

(** The conditions of the chain, read as a function of the prefix: the
    last branch is never the one chosen. *)
Lemma backend_of_prefix (input_str : string) :
  backend_of input_str <> Unrecognized
  /\ backend_of input_str
     = (if Py.startswith "s3://" input_str then ObjectStore
        else if Py.startswith "ftp://" input_str
                || Py.startswith "https://" input_str
                || Py.startswith "http://" input_str then UrlFetch
        else if Py.startswith "sra://" input_str then SequenceArchive
        else LocalCopy).
Proof.
  unfold backend_of, Py.startswith_any, Py.startswith. cbn [existsb].
  destruct (String.prefix "s3://" input_str) eqn:E1.
  { cbn [negb orb]. split; [discriminate|reflexivity]. }
  destruct (String.prefix "ftp://" input_str) eqn:E2.
  { apply prefix_split in E2. set (rest := Py.drop _ _) in E2. clearbody rest.
    subst input_str. destruct rest; vm_compute; (split; [discriminate|reflexivity]). }
  destruct (String.prefix "https://" input_str) eqn:E3.
  { apply prefix_split in E3. set (rest := Py.drop _ _) in E3. clearbody rest.
    subst input_str. destruct rest; vm_compute; (split; [discriminate|reflexivity]). }
  destruct (String.prefix "http://" input_str) eqn:E4.
  { apply prefix_split in E4. set (rest := Py.drop _ _) in E4. clearbody rest.
    subst input_str. destruct rest; vm_compute; (split; [discriminate|reflexivity]). }
  destruct (String.prefix "sra://" input_str) eqn:E5.
  { apply prefix_split in E5. set (rest := Py.drop _ _) in E5. clearbody rest.
    subst input_str. destruct rest; vm_compute; (split; [discriminate|reflexivity]). }
  cbn. split; [discriminate|reflexivity].
Qed.

(** ** The orchestrator: [exit_and_clean_up] and the main program *)

Lemma rmtree_removes (temp : string) (w : World) :
  fs w !! temp = Some Dir ->
  Os.rmtree temp w
  = (mkWorld (filter (fun kv => Os.under temp (fst kv) = false) (fs w))
             (log w) (spawned w) (stack_room w), Ok tt).
Proof. intros H. unfold Os.rmtree, bind, get_fs, put_fs. by rewrite H. Qed.

Lemma under_removed (temp k : string) (f : gmap string node) :
  Os.under temp k = true ->
  filter (fun kv => Os.under temp (fst kv) = false) f !! k = None.
Proof.
  intros Hk. apply map_lookup_filter_None. right. intros x _. cbn. congruence.
Qed.

(** Called on a workspace that is still a directory, [exit_and_clean_up]
    removes it with all below it, starts no process, and ends in
    [sys.exit(exc_value)]. *)
Lemma exit_and_clean_up_spec {A} (format_tb : exn -> list string)
    (exc : exn) (temp : string) (w : World) :
  fs w !! temp = Some Dir ->
  exists w',
    exit_and_clean_up (A := A) format_tb exc temp w
    = (w', Raised (SystemExit (ExitObj exc)))
    /\ fs w' = filter (fun kv => Os.under temp (fst kv) = false) (fs w)
    /\ spawned w' = spawned w.
Proof.
  intros Hdir. unfold exit_and_clean_up, sys_exit, raise.
  unfold bind at 1. cbn [logging_info].
  unfold bind at 1. rewrite for_each_logging.
  unfold bind at 1. cbn [logging_info fs log spawned stack_room].
  unfold bind at 1. rewrite rmtree_removes by exact Hdir.
  cbn. eexists. split; [reflexivity|]. split; reflexivity.
Qed.

(** Whatever exception it is called for, [exit_and_clean_up] ends the
    process with status 1: [sys.exit] is given the exception object, and a
    failure of [rmtree] is an exception nobody catches. *)
Lemma exit_and_clean_up_status (format_tb : exn -> list string)
    (exc : exn) (temp : string) (w : World) :
  exit_status (snd (exit_and_clean_up (A := unit) format_tb exc temp w)) = 1.
Proof.
  unfold exit_and_clean_up, sys_exit, raise.
  unfold bind at 1. cbn [logging_info].
  unfold bind at 1. rewrite for_each_logging.
  unfold bind at 1. cbn [logging_info fs log spawned stack_room].
  unfold bind at 1. unfold Os.rmtree, bind at 1, get_fs, put_fs, raise. cbn.
  by destruct (fs w !! temp) as [[| |]|].
Qed.

Lemma under_self (temp : string) : Os.under temp temp = true.
Proof. unfold Os.under. by rewrite String.eqb_refl. Qed.

(** C6.  Once the temporary folder is set up, an exception raised by
    [get_reads_from_url] (fetching and normalising) or by the run of the
    clustering command, with the folder still a directory at that point,
    ends the run like this: the folder and everything below it are gone
    from the file system, no further process is started, and the exit
    status is 1. *)
Theorem failed_stage_removes_workspace
    (tool : nat -> list string -> option string -> gmap string node -> ProcOut)
    (format_tb : exn -> list string) (uuid8 elapsed : string)
    (args : Args) (w0 w1 w2 : World) (e : exn) :
  let temp := workspace uuid8 args in
  init_run uuid8 args w0 = (w1, Ok tt) ->
  (get_reads_from_url tool (a_input args) temp w1 = (w2, Raised e)
   \/ exists wf read_fps,
        get_reads_from_url tool (a_input args) temp w1 = (wf, Ok read_fps)
        /\ run_cmds0 tool (swarm_command uuid8 args read_fps)
             (mkWorld (fs wf)
                      (log wf ++ ["FASTA output: " +:+ fasta_out uuid8 args;
                                  "CSV output: " +:+ csv_out uuid8 args])
                      (spawned wf)
                      (stack_room wf))
           = (w2, Raised e)) ->
  fs w2 !! temp = Some Dir ->
  exists w_end,
    run_script tool format_tb uuid8 elapsed args w0 = (w_end, 1)
    /\ (forall k, Os.under temp k = true -> fs w_end !! k = None)
    /\ snd (Os.path_exists temp w_end) = Ok false
    /\ spawned w_end = spawned w2.
Proof.
  intros temp Hinit Hstage Hdir.
  destruct (exit_and_clean_up_spec (A := string) format_tb e temp w2 Hdir)
    as (wa & Ha & Hfa & Hsa).
  destruct (exit_and_clean_up_spec (A := retval) format_tb e temp w2 Hdir)
    as (wb & Hb & Hfb & Hsb).
  assert (Hgone : forall w', fs w' = filter (fun kv => Os.under temp (fst kv) = false) (fs w2) ->
            (forall k, Os.under temp k = true -> fs w' !! k = None)
            /\ snd (Os.path_exists temp w') = Ok false).
  { intros w' Hf. split.
    - intros k Hk. rewrite Hf. by apply under_removed.
    - unfold Os.path_exists, Os.follow. cbn. rewrite Hf.
      by rewrite (under_removed temp temp (fs w2) (under_self temp)). }
  unfold run_script, main. fold temp.
  unfold bind at 1. rewrite Hinit.
  unfold bind at 1. unfold try_except at 1.
  destruct Hstage as [Hfetch|(wf & read_fps & Hfetch & Hrun)]; rewrite Hfetch.
  - rewrite Ha. exists wa. cbn. split; [reflexivity|].
    destruct (Hgone wa Hfa). by repeat split.
  - unfold bind at 1. cbn [logging_info].
    unfold bind at 1. cbn [logging_info fs log spawned stack_room].
    unfold bind at 1. unfold try_except at 1.
    rewrite <- app_assoc. cbn [app]. rewrite Hrun, Hb.
    exists wb. cbn. split; [reflexivity|].
    destruct (Hgone wb Hfb). by repeat split.
Qed.

Lemma failed_stage_removes_workspace_witness :
  let temp := "/share/ab12cd34" in
  let missing := lab_args "/data/missing.fasta" in
  let there := lab_args "/data/reads.fasta" in
  let w1 := fst (init_run "ab12cd34" missing host) in
  let w2 := fst (get_reads_from_url (lab lab_fine) "/data/missing.fasta" temp w1) in
  let wf := fst (get_reads_from_url (lab lab_exit_3) "/data/reads.fasta" temp w1) in
  let wc := mkWorld (fs wf)
              (log wf ++ ["FASTA output: " +:+ fasta_out "ab12cd34" there;
                          "CSV output: " +:+ csv_out "ab12cd34" there])
              (spawned wf)
              (stack_room wf) in
  let w3 := fst (run_cmds0 (lab lab_exit_3)
                   (swarm_command "ab12cd34" there "/share/ab12cd34/reads.fasta") wc) in
  (init_run "ab12cd34" missing host = (w1, Ok tt)
   /\ get_reads_from_url (lab lab_fine) "/data/missing.fasta" temp w1
      = (w2, Raised (AssertionError "Input file does not exist (/data/missing.fasta)"))
   /\ fs w2 !! temp = Some Dir
   /\ exists w_end,
        lab_run lab_fine "/data/missing.fasta" = (w_end, 1)
        /\ fs w_end !! temp = None
        /\ fs w_end !! "/share/ab12cd34/S1.log.txt" = None)
  /\ (get_reads_from_url (lab lab_exit_3) "/data/reads.fasta" temp w1
      = (wf, Ok "/share/ab12cd34/reads.fasta")
      /\ run_cmds0 (lab lab_exit_3)
           (swarm_command "ab12cd34" there "/share/ab12cd34/reads.fasta") wc
         = (w3, Raised (AssertionError "Exit code 3"))
      /\ fs w3 !! temp = Some Dir
      /\ fs w3 !! "/share/ab12cd34/reads.fasta" = Some (File ">r1")
      /\ exists w_end,
           lab_run lab_exit_3 "/data/reads.fasta" = (w_end, 1)
           /\ fs w_end !! temp = None
           /\ fs w_end !! "/share/ab12cd34/reads.fasta" = None).
Proof.
  intros temp missing there w1 w2 wf wc w3.
  assert (H1 : init_run "ab12cd34" missing host = (w1, Ok tt))
    by (vm_compute; reflexivity).
  assert (H2 : get_reads_from_url (lab lab_fine) "/data/missing.fasta" temp w1
               = (w2, Raised (AssertionError
                                "Input file does not exist (/data/missing.fasta)")))
    by (vm_compute; reflexivity).
  assert (H3 : fs w2 !! temp = Some Dir) by (vm_compute; reflexivity).
  assert (H4 : get_reads_from_url (lab lab_exit_3) "/data/reads.fasta" temp w1
               = (wf, Ok "/share/ab12cd34/reads.fasta"))
    by (vm_compute; reflexivity).
  assert (H5 : run_cmds0 (lab lab_exit_3)
                 (swarm_command "ab12cd34" there "/share/ab12cd34/reads.fasta") wc
               = (w3, Raised (AssertionError "Exit code 3")))
    by (vm_compute; reflexivity).
  assert (H6 : fs w3 !! temp = Some Dir) by (vm_compute; reflexivity).
  split.
  - split; [exact H1|]. split; [exact H2|]. split; [exact H3|].
    destruct (failed_stage_removes_workspace (lab lab_fine) lab_tb "ab12cd34" "12.5"
                missing host w1 w2 _ H1 (or_introl H2) H3)
      as (w_end & Hrun & Hgone & _ & _).
    exists w_end. split; [exact Hrun|].
    split; apply Hgone; vm_compute; reflexivity.
  - split; [exact H4|]. split; [exact H5|]. split; [exact H6|].
    split; [vm_compute; reflexivity|].
    destruct (failed_stage_removes_workspace (lab lab_exit_3) lab_tb "ab12cd34" "12.5"
                there host w1 w3 _ H1
                (or_intror (ex_intro _ wf (ex_intro _ _ (conj H4 H5)))) H6)
      as (w_end & Hrun & Hgone & _ & _).
    exists w_end. split; [exact Hrun|].
    split; apply Hgone; vm_compute; reflexivity.
Defined.

(** ** More on strings and on directories *)

Lemma app_assoc_s (x y z : string) : (x +:+ y) +:+ z = x +:+ y +:+ z.
Proof. induction x as [|a x IH]; [reflexivity|]. rewrite !app_String. by f_equal. Qed.

Lemma length_app_s (x y : string) :
  String.length (x +:+ y) = (String.length x + String.length y)%nat.
Proof. induction x as [|a x IH]; [reflexivity|]. rewrite app_String. cbn. by f_equal. Qed.

Lemma prefix_app_s (p s : string) : String.prefix p (p +:+ s) = true.
Proof.
  induction p as [|a p IH]; [by destruct s|].
  rewrite app_String. cbn. by destruct (ascii_dec a a).
Qed.

Lemma drop_app_s (p s : string) (j : nat) :
  Py.drop (String.length p + j) (p +:+ s) = Py.drop j s.
Proof. induction p as [|a p IH]; [reflexivity|]. rewrite app_String. cbn. exact IH. Qed.

Lemma drop_all_app (p s : string) : Py.drop (String.length p) (p +:+ s) = s.
Proof.
  rewrite <- (Nat.add_0_r (String.length p)). rewrite drop_app_s. by destruct s.
Qed.

Lemma length_drop_s (k : nat) (s : string) :
  String.length (Py.drop k s) = (String.length s - k)%nat.
Proof.
  revert s; induction k as [|k IH]; intros s; [cbn; lia|].
  destruct s as [|a s]; [reflexivity|]. cbn. apply IH.
Qed.

Lemma drop_drop_s (a b : nat) (s : string) :
  Py.drop a (Py.drop b s) = Py.drop (b + a) s.
Proof.
  revert s; induction b as [|b IH]; intros s; [reflexivity|].
  destruct s as [|c s]; [by destruct a|]. cbn. apply IH.
Qed.

(** A suffix of the tail is a suffix of the whole. *)
Lemma endswith_drop (suf s : string) (k : nat) :
  suf <> "" ->
  Py.endswith suf (Py.drop k s) = true -> Py.endswith suf s = true.
Proof.
  intros Hne. unfold Py.endswith. rewrite !andb_true_iff, !Nat.leb_le.
  rewrite length_drop_s, drop_drop_s. intros [Hlen Heq].
  assert (0 < String.length suf)%nat by (destruct suf; [done|cbn; lia]).
  split; [lia|].
  replace (String.length s - String.length suf)%nat
    with (k + (String.length s - k - String.length suf))%nat by lia.
  exact Heq.
Qed.

(** Whether [x +:+ y] ends with [suf] is up to [y] when [y] is long enough. *)
Lemma endswith_app (suf x y : string) :
  (String.length suf <= String.length y)%nat ->
  Py.endswith suf (x +:+ y) = Py.endswith suf y.
Proof.
  intros Hlen. unfold Py.endswith. rewrite length_app_s.
  replace (String.length x + String.length y - String.length suf)%nat
    with (String.length x + (String.length y - String.length suf))%nat by lia.
  rewrite drop_app_s.
  destruct (Nat.leb_spec (String.length suf) (String.length y)); [|lia].
  destruct (Nat.leb_spec (String.length suf) (String.length x + String.length y));
    [reflexivity|lia].
Qed.

Lemma has_slash_cons (a : ascii) (s : string) :
  Os.has_slash (String a s) = Ascii.eqb a "/" || Os.has_slash s.
Proof.
  unfold Os.has_slash. cbn [String.index String.prefix].
  destruct (ascii_dec "/" a) as [<-|Hne].
  - by destruct s.
  - assert (Ascii.eqb a "/" = false) as -> by (apply Ascii.eqb_neq; congruence).
    cbn [orb]. by destruct (String.index 0 "/" s).
Qed.

Lemma has_slash_app (x y : string) :
  Os.has_slash (x +:+ y) = Os.has_slash x || Os.has_slash y.
Proof.
  induction x as [|a x IH]; [reflexivity|].
  rewrite app_String, !has_slash_cons, IH. by rewrite orb_assoc.
Qed.

Lemma no_slash_not_absolute (s : string) :
  Os.has_slash s = false -> Py.startswith "/" s = false.
Proof.
  destruct s as [|a s]; [reflexivity|]. rewrite has_slash_cons, orb_false_iff.
  intros [Ha _]. apply Ascii.eqb_neq in Ha. unfold Py.startswith.
  cbn [String.prefix]. destruct (ascii_dec "/" a); [congruence|reflexivity].
Qed.

(** [os.path.join(d, name)] is the name the directory knows the entry by. *)
Lemma path_join_entry (d name : string) :
  d <> "" -> Os.has_slash name = false ->
  Py.path_join d name = Os.with_slash d +:+ name.
Proof.
  intros Hd Hn. unfold Py.path_join, Os.with_slash.
  rewrite (no_slash_not_absolute name Hn).
  assert (String.eqb d "" = false) as -> by by apply String.eqb_neq.
  cbn [orb]. destruct (Py.endswith "/" d); [reflexivity|].
  by rewrite app_assoc_s.
Qed.

Lemma entry_name_spec (d k name : string) :
  Os.entry_name d k = Some name
  <-> k = Os.with_slash d +:+ name /\ name <> "" /\ Os.has_slash name = false.
Proof.
  unfold Os.entry_name, Py.startswith. split.
  - destruct (String.prefix (Os.with_slash d) k) eqn:Hp; [|discriminate].
    apply prefix_split in Hp.
    destruct (String.eqb_spec (Py.drop (String.length (Os.with_slash d)) k) "")
      as [|Hne]; [discriminate|].
    destruct (Os.has_slash _) eqn:Hs; [discriminate|].
    cbn [orb]. intros [= <-]. by repeat split.
  - intros (-> & Hne & Hs). rewrite prefix_app_s, drop_all_app, Hs.
    by assert (String.eqb name "" = false) as -> by by apply String.eqb_neq.
Qed.

Lemma entries_spec (f : gmap string node) (d name : string) :
  name ∈ Os.entries f d
  <-> is_Some (f !! (Os.with_slash d +:+ name))
      /\ name <> "" /\ Os.has_slash name = false.
Proof.
  unfold Os.entries. rewrite list_elem_of_omap. split.
  - intros ([k v] & Hin & He). apply elem_of_map_to_list in Hin.
    cbn [fst] in He. apply entry_name_spec in He as (-> & Hne & Hs). eauto.
  - intros ([v Hv] & Hne & Hs). exists (Os.with_slash d +:+ name, v). split.
    + by apply elem_of_map_to_list.
    + by apply entry_name_spec.
Qed.

Lemma NoDup_entries (f : gmap string node) (d : string) : NoDup (Os.entries f d).
Proof.
  unfold Os.entries.
  assert (Hkeys : NoDup (map_to_list f).*1) by apply NoDup_fst_map_to_list.
  induction (map_to_list f) as [|[k v] l IH]; [constructor|].
  cbn in Hkeys |- *. apply NoDup_cons in Hkeys as [Hk Hl].
  destruct (Os.entry_name d k) as [name|] eqn:He; [|by apply IH].
  apply NoDup_cons. split; [|by apply IH].
  rewrite list_elem_of_omap. intros ([k' v'] & Hin & He').
  apply entry_name_spec in He as (-> & _). cbn [fst] in He'.
  apply entry_name_spec in He' as (-> & _). apply Hk. apply list_elem_of_fmap. by exists (Os.with_slash d +:+ name, v').
Qed.

(** ** The sequence archive: [get_sra] *)

Lemma unlink_spec (p : string) (w : World) (nd : node) :
  fs w !! p = Some nd -> nd <> Dir ->
  Os.unlink p w = (mkWorld (delete p (fs w)) (log w) (spawned w) (stack_room w), Ok tt).
Proof.
  intros Hl Hd. unfold Os.unlink, bind, get_fs, put_fs. rewrite Hl.
  by destruct nd.
Qed.

Section RemoveParts.

Variables (accession temp : string).
Hypothesis temp_named : temp <> "".

(** The loop removes every listed name that has the accession in front
    and [fastq] at the end, and nothing else. *)
Lemma remove_parts_spec (l : list string) :
  forall w : World,
    NoDup l ->
    (forall n, n ∈ l -> Os.has_slash n = false) ->
    (forall n, n ∈ l -> sra_part accession n = true ->
               exists x, fs w !! (Os.with_slash temp +:+ n) = Some x /\ x <> Dir) ->
    exists w',
      for_each l (remove_part accession temp) w = (w', Ok tt)
      /\ spawned w' = spawned w
      /\ (forall n, n ∈ l -> sra_part accession n = true ->
                    fs w' !! (Os.with_slash temp +:+ n) = None)
      /\ (forall k,
            (forall n, n ∈ l -> sra_part accession n = true ->
                       k <> Os.with_slash temp +:+ n) ->
            fs w' !! k = fs w !! k)
      /\ (forall k x, fs w' !! k = Some x -> fs w !! k = Some x).
Proof.
  induction l as [|x l IH]; intros w Hnd Hslash Hfile.
  - exists w. repeat split; try reflexivity; try done.
    intros n Hn. by apply elem_of_nil in Hn.
  - apply NoDup_cons in Hnd as [Hx Hnd].
    assert (Hsl : forall n, n ∈ l -> Os.has_slash n = false)
      by (intros n Hn; apply Hslash; by right).
    assert (Hxin : x ∈ x :: l) by left.
    cbn [for_each]. unfold bind at 1. unfold remove_part at 1.
    destruct (sra_part accession x) eqn:Hpart.
    + destruct (Hfile x Hxin Hpart) as (nd & Hlook & Hnd').
      rewrite (path_join_entry temp x temp_named (Hslash x Hxin)).
      set (w1 := mkWorld (delete (Os.with_slash temp +:+ x) (fs w))
                         (log w ++ ["Removing " +:+ (Os.with_slash temp +:+ x)])
                         (spawned w) (stack_room w)).
      assert (Hw1 : (logging_info ("Removing " +:+ (Os.with_slash temp +:+ x)) ;;
                     Os.unlink (Os.with_slash temp +:+ x)) w = (w1, Ok tt)).
      { unfold bind at 1. cbn [logging_info].
        by apply unlink_spec with nd. }
      rewrite Hw1.
      destruct (IH w1 Hnd Hsl) as (w' & Hrun & Hsp & Hgone & Hkeep & Hsub).
      { intros n Hn Hp.
        assert (Hnin : n ∈ x :: l) by by right.
        destruct (Hfile n Hnin Hp) as (y & Hy & Hyd).
        exists y. split; [|exact Hyd]. cbn. rewrite lookup_delete_ne; [exact Hy|].
        intros Heq. apply (inj _) in Heq. subst. contradiction. }
      exists w'. split; [exact Hrun|]. split; [by rewrite Hsp|]. split; [|split].
      * intros n Hn Hp. apply elem_of_cons in Hn as [->|Hn]; [|by apply Hgone].
        rewrite Hkeep; [cbn; apply lookup_delete_eq|].
        intros n Hn _ Heq. apply (inj _) in Heq. subst. contradiction.
      * intros k Hk. rewrite Hkeep.
        -- cbn. apply lookup_delete_ne. intros Heq. by apply (Hk x Hxin Hpart).
        -- intros n Hn Hp. apply Hk; [by right|exact Hp].
      * intros k y Hy. apply Hsub in Hy. cbn in Hy.
        by apply lookup_delete_Some in Hy as [_ Hy].
    + destruct (IH w Hnd Hsl) as (w' & Hrun & Hsp & Hgone & Hkeep & Hsub).
      { intros n Hn Hp. apply Hfile; [by right|exact Hp]. }
      exists w'. split; [exact Hrun|]. split; [exact Hsp|]. split; [|split].
      * intros n Hn Hp. apply elem_of_cons in Hn as [->|Hn]; [congruence|by apply Hgone].
      * intros k Hk. apply Hkeep. intros n Hn Hp. apply Hk; [by right|exact Hp].
      * exact Hsub.
Qed.

End RemoveParts.

(** Writing a file the pattern does not match changes nothing to what
    [cat] finds, as long as what it matches are plain files. *)
Lemma cat_glob_insert (f : gmap string node) (dir accession k : string) (v : node) :
  (forall n, Os.entry_name dir k = Some n -> glob_part accession n = false) ->
  (forall n, n ∈ Os.entries f dir -> glob_part accession n = true ->
             exists c, f !! (Os.with_slash dir +:+ n) = Some (File c)) ->
  cat_glob (<[k := v]> f) dir accession = cat_glob f dir accession.
Proof.
  intros Hk Hfiles. unfold cat_glob.
  assert (Hperm : filter (fun n => glob_part accession n = true) (Os.entries (<[k := v]> f) dir)
                  ≡ₚ filter (fun n => glob_part accession n = true) (Os.entries f dir)).
  { assert (Hfresh : forall (g : gmap string node) x, g !! k = None ->
              filter (fun n => glob_part accession n = true) (Os.entries (<[k := x]> g) dir)
              ≡ₚ filter (fun n => glob_part accession n = true) (Os.entries g dir)).
    { intros g x Hg. unfold Os.entries.
      rewrite (map_to_list_insert g k x Hg). cbn [omap list_omap fst].
      change (list_omap ?h ?l) with (omap h l).
      destruct (Os.entry_name dir k) as [n|] eqn:He; [|reflexivity].
      rewrite filter_cons. destruct (decide (glob_part accession n = true)) as [Hg'|];
        [|reflexivity].
      rewrite (Hk n eq_refl) in Hg'. discriminate. }
    destruct (f !! k) as [v0|] eqn:Hlook; [|by apply Hfresh].
    rewrite <- (insert_delete_eq f k v).
    rewrite <- (insert_delete_id f k v0 Hlook) at 2.
    rewrite !Hfresh by apply lookup_delete_eq. reflexivity. }
  assert (Hsort : merge_sort String.le
                    (filter (fun n => glob_part accession n = true)
                            (Os.entries (<[k := v]> f) dir))
                  = merge_sort String.le
                      (filter (fun n => glob_part accession n = true) (Os.entries f dir))).
  { apply (Sorted_unique String.le); try apply Sorted_merge_sort; try apply _.
    by rewrite !merge_sort_Permutation. }
  rewrite Hsort. f_equal. apply map_ext_in. intros n Hn.
  apply list_elem_of_In in Hn. rewrite merge_sort_Permutation in Hn.
  apply list_elem_of_filter in Hn as [Hg Hn].
  destruct (Hfiles n Hn Hg) as [c Hc].
  assert (Hne : k <> Os.with_slash dir +:+ n).
  { intros ->. apply entries_spec in Hn as (_ & Hnn & Hs).
    rewrite (Hk n) in Hg; [discriminate|]. by apply entry_name_spec. }
  unfold file_text, Os.follow. by rewrite lookup_insert_ne, Hc.
Qed.

Lemma last_char_app (x y : string) :
  y <> "" -> Py.last_char (x +:+ y) = Py.last_char y.
Proof.
  intros Hy. induction x as [|a x IH]; [reflexivity|].
  rewrite app_String. cbn [Py.last_char]. rewrite IH.
  destruct (x +:+ y) eqn:E; [|reflexivity].
  destruct x; [by cbn in E|by rewrite app_String in E].
Qed.

Lemma sra_part_of_glob (accession n : string) :
  glob_part accession n = true -> sra_part accession n = true.
Proof.
  unfold glob_part, sra_part. rewrite !andb_true_iff. intros [Hp Hs].
  split; [exact Hp|]. by apply endswith_drop in Hs.
Qed.

Lemma sra_part_fastq (accession : string) :
  sra_part accession (accession +:+ ".fastq") = true.
Proof.
  unfold sra_part, Py.startswith. rewrite prefix_app_s. cbn [andb].
  by rewrite endswith_app by (cbn; lia).
Qed.

Lemma sra_part_temp (accession : string) :
  sra_part accession (accession +:+ ".fastq.temp") = false.
Proof.
  unfold sra_part. rewrite endswith_app by (cbn; lia). apply andb_false_r.
Qed.

Lemma glob_part_temp (accession : string) :
  glob_part accession (accession +:+ ".fastq.temp") = false.
Proof.
  destruct (glob_part accession (accession +:+ ".fastq.temp")) eqn:E; [|reflexivity].
  apply sra_part_of_glob in E. by rewrite sra_part_temp in E.
Qed.

Lemma with_slash_longer (d name : string) :
  name <> "" -> d <> Os.with_slash d +:+ name.
Proof.
  intros Hn Heq. apply (f_equal String.length) in Heq.
  rewrite length_app_s in Heq. unfold Os.with_slash in Heq.
  assert (0 < String.length name)%nat by (destruct name; [done|cbn; lia]).
  destruct (Py.endswith "/" d); [lia|]. rewrite length_app_s in Heq. lia.
Qed.

Lemma bind_ok {A B} (m : M A) (k : A -> M B) (w w1 : World) (a : A) :
  m w = (w1, Ok a) -> bind m k w = k a w1.
Proof. intros H. unfold bind. by rewrite H. Qed.

Lemma listdir_dir (p : string) (w : World) :
  p <> "" -> fs w !! p = Some Dir ->
  Os.listdir p w = (w, Ok (Os.entries (fs w) p)).
Proof.
  intros Hp Hd. unfold Os.listdir, bind, get_fs, Os.follow.
  assert (String.eqb p "" = false) as -> by by apply String.eqb_neq.
  by rewrite Hd.
Qed.

Lemma Popen_to_spec
    (tool : nat -> list string -> option string -> gmap string node -> ProcOut)
    (argv : list string) (path : string) (w : World) :
  fs w !! path <> Some Dir ->
  let r := tool (length (spawned w)) argv (Some path) (<[path := File ""]> (fs w)) in
  Popen_to tool argv path w
  = (mkWorld (<[path := File (p_out r)]> (p_fs r)) (log w)
             (spawned w ++ [Spawn argv (Some path)]) (stack_room w), Ok r).
Proof.
  intros Hp r. unfold Popen_to, Popen, Os.open_wt, Os.write_out.
  unfold bind, get_fs, put_fs, ret. cbn.
  by destruct (fs w !! path) as [[| |]|] eqn:E.
Qed.

(** C9.  [get_sra] for an accession and a temporary folder, when the
    download goes through and leaves reads files in the folder (at least
    one entry that starts with the accession and ends in [fastq], all such
    entries plain files), with the shell, [cat] and [mv] doing their job and
    nothing in the way of the temporary file or of the cached archive:
    the call returns [<temp>/<accession>.fastq]; that file holds the
    contents of the reads files, one after the other in the order of their
    names; every reads file of another name is gone from the folder, and so
    is the temporary file; the combined file is the only entry left that
    starts with the accession and ends in [fastq]. *)
Theorem get_sra_combines_parts
    (tool : nat -> list string -> option string -> gmap string node -> ProcOut)
    (accession temp : string) (w wc : World) :
  let local_path := Py.path_join temp (accession +:+ ".fastq") in
  temp <> "" ->
  Os.has_slash accession = false ->
  cat_behaves tool temp accession ->
  mv_behaves tool ->
  sra_download tool accession temp w = (wc, Ok tt) ->
  fs wc !! temp = Some Dir ->
  (exists n, n ∈ Os.entries (fs wc) temp /\ sra_part accession n = true) ->
  (forall n, n ∈ Os.entries (fs wc) temp -> sra_part accession n = true ->
             exists c, fs wc !! (Os.with_slash temp +:+ n) = Some (File c)) ->
  fs wc !! (local_path +:+ ".temp") <> Some Dir ->
  fs wc !! ("/root/ncbi/public/sra/" +:+ accession +:+ ".sra") <> Some Dir ->
  exists w',
    get_sra tool accession temp w = (w', Ok local_path)
    /\ fs w' !! local_path = Some (File (cat_glob (fs wc) temp accession))
    /\ (forall n, n ∈ Os.entries (fs wc) temp -> sra_part accession n = true ->
                  n <> accession +:+ ".fastq" ->
                  fs w' !! Py.path_join temp n = None)
    /\ fs w' !! (local_path +:+ ".temp") = None
    /\ (forall n, n ∈ Os.entries (fs w') temp -> sra_part accession n = true ->
                  n = accession +:+ ".fastq").
Proof.
  intros lp Htemp Hacc Hcat Hmv Hdl Hdir Hsome Hfiles Htmp Hcache.
  set (pre := Os.with_slash temp) in *.
  set (text := cat_glob (fs wc) temp accession).
  set (cache_fp := "/root/ncbi/public/sra/" +:+ accession +:+ ".sra") in *.
  assert (Hlp : lp = pre +:+ (accession +:+ ".fastq")).
  { apply path_join_entry; [exact Htemp|]. by rewrite has_slash_app, Hacc. }
  assert (Hlpt : lp +:+ ".temp" = pre +:+ (accession +:+ ".fastq.temp")).
  { by rewrite Hlp, !app_assoc_s. }
  set (lpt := lp +:+ ".temp") in *.
  assert (Hne_lp : lpt <> lp).
  { rewrite Hlpt, Hlp. intros Heq. apply (inj _) in Heq. apply (inj _) in Heq. discriminate. }
  assert (Hne_temp : temp <> lpt).
  { rewrite Hlpt. apply with_slash_longer. by destruct accession. }
  assert (Hne_cache : cache_fp <> lpt).
  { intros Heq. apply (f_equal Py.last_char) in Heq. subst cache_fp lpt.
    rewrite <- app_assoc_s in Heq.
    rewrite (last_char_app _ ".sra"), (last_char_app _ ".temp") in Heq by done.
    discriminate. }
  assert (Hpart_not_lpt : forall n, sra_part accession n = true -> lpt <> pre +:+ n).
  { intros n Hp Heq. rewrite Hlpt in Heq. apply (inj _) in Heq. subst n.
    by rewrite sra_part_temp in Hp. }
  set (f_cat := <[lpt := File text]> (fs wc)).
  assert (Hent_cat : forall n, sra_part accession n = true ->
            n ∈ Os.entries f_cat temp <-> n ∈ Os.entries (fs wc) temp).
  { intros n Hp. rewrite !entries_spec. unfold f_cat.
    by rewrite lookup_insert_ne by by apply Hpart_not_lpt. }
  (* the listing and the assert *)
  unfold get_sra. rewrite (bind_ok _ _ _ _ _ Hdl). unfold sra_combine.
  rewrite (bind_ok _ _ _ _ _ (listdir_dir temp wc Htemp Hdir)).
  assert (Hex : existsb (sra_part accession) (Os.entries (fs wc) temp) = true).
  { apply existsb_exists. destruct Hsome as (n & Hn & Hp). exists n.
    split; [by apply list_elem_of_In|exact Hp]. }
  rewrite Hex. cbn [py_assert].
  rewrite (bind_ok _ _ wc wc tt eq_refl).
  erewrite bind_ok by reflexivity.
  (* cat *)
  set (w1 := mkWorld (fs wc) (log wc ++ ["Concatenating output files"]) (spawned wc)
                     (stack_room wc)).
  pose proof (Popen_to_spec tool
                ["/bin/sh"; "-c"; "cat " +:+ temp +:+ "/" +:+ accession +:+ "*fastq"]
                lpt w1 Htmp) as Hpopen.
  cbn zeta in Hpopen.
  destruct (Hcat (length (spawned w1)) (Some lpt) (<[lpt := File ""]> (fs w1)))
    as [Hcat_fs Hcat_out].
  rewrite Hcat_fs, Hcat_out in Hpopen.
  rewrite insert_insert_eq in Hpopen.
  rewrite cat_glob_insert in Hpopen.
  2:{ intros n Hn. apply entry_name_spec in Hn as (Hn & _). rewrite Hlpt in Hn.
      apply (inj _) in Hn. subst n. apply glob_part_temp. }
  2:{ intros n Hn Hg. apply Hfiles; [exact Hn|by apply sra_part_of_glob]. }
  rewrite (bind_ok _ _ _ _ _ Hpopen). clear Hpopen Hcat_fs Hcat_out.
  (* the removal of the parts *)
  set (w2 := mkWorld (<[lpt := File (cat_glob (fs w1) temp accession)]> (fs w1)) _ _ _).
  assert (Hw2 : fs w2 = f_cat) by reflexivity.
  assert (Hdir2 : fs w2 !! temp = Some Dir).
  { rewrite Hw2. unfold f_cat. by rewrite lookup_insert_ne. }
  rewrite (bind_ok _ _ _ _ _ (listdir_dir temp w2 Htemp Hdir2)). rewrite Hw2.
  destruct (remove_parts_spec accession temp Htemp (Os.entries f_cat temp) w2)
    as (w3 & Hloop & _ & Hgone & Hkeep & Hsub).
  { apply NoDup_entries. }
  { intros n Hn. by apply entries_spec in Hn as (_ & _ & Hs). }
  { intros n Hn Hp. destruct (Hfiles n) as [c Hc]; [by apply Hent_cat|exact Hp|].
    exists (File c). split; [|done]. rewrite Hw2. unfold f_cat.
    by rewrite lookup_insert_ne by by apply Hpart_not_lpt. }
  rewrite (bind_ok _ _ _ _ _ Hloop).
  assert (Hw3_lpt : fs w3 !! lpt = Some (File text)).
  { rewrite Hkeep; [rewrite Hw2; apply lookup_insert_eq|].
    intros n _ Hp. by apply Hpart_not_lpt. }
  assert (Hw3_lp : fs w3 !! lp = None).
  { destruct (fs w3 !! lp) as [x|] eqn:E; [|reflexivity].
    rewrite <- E. rewrite Hlp. apply Hgone; [|apply sra_part_fastq].
    apply Hsub in E. rewrite Hw2 in E. apply entries_spec. fold pre.
    rewrite <- Hlp, E.
    split; [by eexists|]. split; [by destruct accession|].
    by rewrite has_slash_app, Hacc. }
  (* from the removal of the cached archive on: the move and the end *)
  assert (Hrest : forall w4,
            fs w4 !! lpt = Some (File text) ->
            (forall k x, fs w4 !! k = Some x -> fs w3 !! k = Some x) ->
            exists w',
              (run_cmds0 tool ["mv"; lpt; lp] ;;
               logging_info ("Done fetching " +:+ accession) ;;
               ret lp) w4 = (w', Ok lp)
              /\ fs w' !! lp = Some (File text)
              /\ (forall n, n ∈ Os.entries (fs wc) temp -> sra_part accession n = true ->
                            n <> accession +:+ ".fastq" ->
                            fs w' !! Py.path_join temp n = None)
              /\ fs w' !! lpt = None
              /\ (forall n, n ∈ Os.entries (fs w') temp -> sra_part accession n = true ->
                            n = accession +:+ ".fastq")).
  { intros w4 H4lpt H4sub.
    assert (H4lp : fs w4 !! lp = None).
    { destruct (fs w4 !! lp) as [x|] eqn:E; [|reflexivity].
      apply H4sub in E. congruence. }
    unfold bind at 1. rewrite run_cmds0_spec. cbn zeta.
    unfold after_run. rewrite !Hmv. unfold mv, Os.follow. rewrite H4lpt, H4lp.
    cbn [p_code p_fs p_out Z.eqb].
    eexists. split; [reflexivity|]. cbn [fs].
    split; [apply lookup_insert_eq|].
    assert (Hdel : forall n, n ∈ Os.entries (fs wc) temp -> sra_part accession n = true ->
              fs w4 !! (pre +:+ n) = None).
    { intros n Hn Hp. destruct (fs w4 !! (pre +:+ n)) as [x|] eqn:E; [|reflexivity].
      apply H4sub in E. rewrite <- E. apply Hgone; [by apply Hent_cat|exact Hp]. }
    split; [|split].
    - intros n Hn Hp Hne.
      rewrite path_join_entry; [|exact Htemp|by apply entries_spec in Hn as (_ & _ & Hs)].
      fold pre. rewrite lookup_insert_ne.
      + apply lookup_delete_None. right. by apply Hdel.
      + rewrite Hlp. intros Heq. apply (inj _) in Heq. congruence.
    - rewrite lookup_insert_ne by done. apply lookup_delete_eq.
    - intros n Hn Hp. destruct (decide (n = accession +:+ ".fastq")) as [|Hne]; [done|].
      exfalso. apply entries_spec in Hn as ([x Hx] & Hnn & Hs). fold pre in Hx.
      rewrite lookup_insert_ne in Hx
        by (rewrite Hlp; intros Heq; apply (inj _) in Heq; congruence).
      apply lookup_delete_Some in Hx as [_ Hx].
      apply H4sub in Hx. rewrite Hgone in Hx; [discriminate| |exact Hp].
      apply Hsub in Hx as Hx2. apply entries_spec. fold pre. rewrite <- Hw2, Hx2.
      split; [by eexists|done]. }
  (* the cached archive *)
  rewrite (bind_ok _ _ w3 w3 _ eq_refl). fold cache_fp.
  destruct (Os.follow (fs w3) cache_fp) as [nd|] eqn:Efollow.
  - destruct (fs w3 !! cache_fp) as [nd0|] eqn:E0;
      [|unfold Os.follow in Efollow; by rewrite E0 in Efollow].
    assert (Hnd0 : nd0 <> Dir).
    { intros ->. apply Hsub in E0. rewrite Hw2 in E0. unfold f_cat in E0.
      rewrite lookup_insert_ne in E0 by done. contradiction. }
    erewrite bind_ok;
      [|unfold bind at 1; cbn [logging_info]; by apply unlink_spec with nd0].
    apply Hrest; cbn [fs].
    + by rewrite lookup_delete_ne.
    + intros k x Hx. by apply lookup_delete_Some in Hx as [_ Hx].
  - rewrite (bind_ok _ _ w3 w3 tt eq_refl). by apply Hrest.
Qed.


Lemma lab_cat_behaves (s : lab_setup) : cat_behaves (lab s) (lab_dir s) (lab_accession s).
Proof.
  intros n out f. unfold lab. cbn zeta. rewrite String.eqb_refl. split; reflexivity.
Defined.

Lemma lab_mv_behaves (s : lab_setup) : mv_behaves (lab s).
Proof. intros n src dst f. reflexivity. Defined.

Lemma sra_downloaded_entries :
  Os.entries (fs sra_downloaded) "/share/ab12cd34"
  = ["sra"; "S1.log.txt"; "SRR000001_1.fastq"; "SRR000001_2.fastq"].
Proof. vm_compute; reflexivity. Defined.

Lemma sra_downloaded_parts (n : string) :
  n ∈ Os.entries (fs sra_downloaded) "/share/ab12cd34" ->
  sra_part "SRR000001" n = true ->
  exists c, fs sra_downloaded !! (Os.with_slash "/share/ab12cd34" +:+ n) = Some (File c).
Proof.
  rewrite sra_downloaded_entries. intros Hn Hp.
  repeat (apply elem_of_cons in Hn as [->|Hn]);
    [discriminate Hp|discriminate Hp|eexists; vm_compute; reflexivity
     |eexists; vm_compute; reflexivity|by apply elem_of_nil in Hn].
Defined.

Lemma get_sra_combines_parts_witness :
  sra_download (lab lab_fine) "SRR000001" "/share/ab12cd34" sra_start
  = (sra_downloaded, Ok tt)
  /\ fs sra_downloaded !! "/share/ab12cd34/SRR000001_1.fastq" = Some (File "@r/1")
  /\ fs sra_downloaded !! "/share/ab12cd34/SRR000001_2.fastq" = Some (File "@r/2")
  /\ exists w',
       get_sra (lab lab_fine) "SRR000001" "/share/ab12cd34" sra_start
       = (w', Ok "/share/ab12cd34/SRR000001.fastq")
       /\ fs w' !! "/share/ab12cd34/SRR000001.fastq" = Some (File "@r/1@r/2")
       /\ fs w' !! "/share/ab12cd34/SRR000001_1.fastq" = None
       /\ fs w' !! "/share/ab12cd34/SRR000001_2.fastq" = None
       /\ fs w' !! "/share/ab12cd34/SRR000001.fastq.temp" = None.
Proof.
  assert (Hdl : sra_download (lab lab_fine) "SRR000001" "/share/ab12cd34" sra_start
                = (sra_downloaded, Ok tt))
    by (vm_compute; reflexivity).
  split; [exact Hdl|]. split; [vm_compute; reflexivity|].
  split; [vm_compute; reflexivity|].
  destruct (get_sra_combines_parts (lab lab_fine) "SRR000001" "/share/ab12cd34"
              sra_start sra_downloaded)
    as (w' & Hrun & Hlp & Hgone & Htmp & _).
  - discriminate.
  - vm_compute; reflexivity.
  - exact (lab_cat_behaves lab_fine).
  - exact (lab_mv_behaves lab_fine).
  - exact Hdl.
  - vm_compute; reflexivity.
  - exists "SRR000001_1.fastq". rewrite sra_downloaded_entries.
    split; [|vm_compute; reflexivity]. right. right. left.
  - exact sra_downloaded_parts.
  - vm_compute; discriminate.
  - vm_compute; discriminate.
  - assert (Htext : cat_glob (fs sra_downloaded) "/share/ab12cd34" "SRR000001" = "@r/1@r/2")
      by (vm_compute; reflexivity).
    rewrite Htext in Hlp. rewrite sra_downloaded_entries in Hgone.
    exists w'. split; [exact Hrun|]. split; [exact Hlp|].
    split; [|split; [|exact Htmp]].
    + apply (Hgone "SRR000001_1.fastq");
        [right; right; left|vm_compute; reflexivity|discriminate].
    + apply (Hgone "SRR000001_2.fastq");
        [right; right; right; left|vm_compute; reflexivity|discriminate].
Defined.

(** ** The verification of the outputs and the exit status *)

(** C1, where the script departs from it.  The clustering tool exits 0 and
    leaves an empty CSV file.  The run does fail: the [assert] on the size
    raises, nobody catches it, and the exit status is 1.  But the two
    asserts are outside any [try], so [exit_and_clean_up] is not called and
    the temporary folder stays on disk with all it holds; a failure of the
    clustering command itself, in the [try] just before, does remove it. *)
Theorem empty_output_keeps_workspace :
  let res := lab_run lab_empty_csv "/data/reads.fasta" in
  p_code (lab lab_empty_csv 0%nat
            (swarm_command "ab12cd34" (lab_args "/data/reads.fasta")
                           "/share/ab12cd34/reads.fasta") None ∅) = 0
  /\ snd (main (lab lab_empty_csv) lab_tb "ab12cd34" "12.5"
               (lab_args "/data/reads.fasta") host)
     = Raised (AssertionError "")
  /\ snd res = 1
  /\ fs (fst res) !! "/share/ab12cd34/S1.swarm.csv" = Some (File "")
  /\ fs (fst res) !! "/share/ab12cd34" = Some Dir
  /\ fs (fst res) !! "/share/ab12cd34/reads.fasta" = Some (File ">r1")
  /\ ("Removing temporary folder: /share/ab12cd34" ∉ log (fst res))
  /\ fs (fst (lab_run lab_exit_3 "/data/reads.fasta")) !! "/share/ab12cd34" = None.
Proof.
  vm_compute. repeat split; try reflexivity.
  intros H. repeat (apply elem_of_cons in H as [H|H]; [discriminate H|]).
  by apply elem_of_nil in H.
Qed.

(** C5, where the script departs from it.  The clustering tool exits 3.
    [run_cmds] raises the AssertionError "Exit code 3", and
    [exit_and_clean_up] logs it under "Exit code:" and passes the exception
    itself to [sys.exit]: an object that is neither an int nor [None], so
    the interpreter prints it and exits with status 1, not 3.  A run that
    goes through exits with 0. *)
Theorem exit_status_is_not_the_exit_code :
  let res := lab_run lab_exit_3 "/data/reads.fasta" in
  p_code (lab lab_exit_3 0%nat
            (swarm_command "ab12cd34" (lab_args "/data/reads.fasta")
                           "/share/ab12cd34/reads.fasta") None ∅) = 3
  /\ snd (main (lab lab_exit_3) lab_tb "ab12cd34" "12.5"
               (lab_args "/data/reads.fasta") host)
     = Raised (SystemExit (ExitObj (AssertionError "Exit code 3")))
  /\ last (log (fst res)) = Some "Exit code: Exit code 3"
  /\ snd res = 1
  /\ snd res <> 3
  /\ snd (lab_run lab_fine "/data/reads.fasta") = 0.
Proof. vm_compute. repeat split; discriminate. Qed.

(** ** The Source Fetcher: what each prefix is routed to *)

Lemma no_plain_exception_bind {A B} (m : M A) (k : A -> M B) :
  no_plain_exception m -> (forall a, no_plain_exception (k a)) ->
  no_plain_exception (bind m k).
Proof.
  intros Hm Hk w w' e. unfold bind.
  destruct (m w) as [w1 [a|e1]] eqn:E.
  - apply Hk.
  - intros [= <- <-]. exact (Hm _ _ _ E).
Qed.

Lemma no_plain_exception_ret {A} (a : A) : no_plain_exception (ret a).
Proof. intros w w' e. discriminate. Qed.

Lemma no_plain_exception_logging (line : string) :
  no_plain_exception (logging_info line).
Proof. intros w w' e. discriminate. Qed.

Lemma no_plain_exception_assert (c : bool) (msg : string) :
  no_plain_exception (py_assert c msg).
Proof. intros w w' e. destruct c; [discriminate|]. by intros [= <- <-]. Qed.

Lemma no_plain_exception_for_each {A} (l : list A) (body : A -> M unit) :
  (forall x, no_plain_exception (body x)) -> no_plain_exception (for_each l body).
Proof.
  intros Hb. induction l as [|x l IH]; cbn [for_each].
  - apply no_plain_exception_ret.
  - apply no_plain_exception_bind; [apply Hb|]. intros _. exact IH.
Qed.

Lemma no_plain_exception_path_exists (p : string) :
  no_plain_exception (Os.path_exists p).
Proof. intros w w' e. discriminate. Qed.

Lemma no_plain_exception_mkdir (p : string) : no_plain_exception (Os.mkdir p).
Proof.
  intros w w' e. unfold Os.mkdir, bind, get_fs, put_fs, raise.
  destruct (fs w !! p); [|discriminate]. by intros [= <- <-].
Qed.

Lemma no_plain_exception_rmtree (p : string) : no_plain_exception (Os.rmtree p).
Proof.
  intros w w' e. unfold Os.rmtree, bind, get_fs, put_fs, raise.
  destruct (fs w !! p) as [[| |]|]; try discriminate; by intros [= <- <-].
Qed.

Lemma no_plain_exception_listdir (p : string) : no_plain_exception (Os.listdir p).
Proof.
  intros w w' e. unfold Os.listdir, bind, get_fs, ret, raise.
  destruct (String.eqb p ""); [by intros [= <- <-]|].
  destruct (Os.follow (fs w) p) as [[| |]|]; try discriminate; by intros [= <- <-].
Qed.

Lemma no_plain_exception_unlink (p : string) : no_plain_exception (Os.unlink p).
Proof.
  intros w w' e. unfold Os.unlink, bind, get_fs, put_fs, raise.
  destruct (fs w !! p) as [[| |]|]; try discriminate; by intros [= <- <-].
Qed.

Lemma no_plain_exception_copyfile (src dst : string) :
  no_plain_exception (Os.copyfile src dst).
Proof.
  intros w w' e. unfold Os.copyfile, Os.open_wt, Os.write_out.
  unfold bind, get_fs, put_fs, ret, raise.
  destruct (String.eqb src dst); [by intros [= <- <-]|].
  destruct (Os.follow (fs w) src) as [[c| |]|]; try by intros [= <- <-].
  destruct (Os.place_error (fs w) dst); [by intros [= <- <-]|].
  destruct (fs w !! dst) as [[| |]|]; try discriminate; by intros [= <- <-].
Qed.

Lemma no_plain_exception_run_cmds0
    (tool : nat -> list string -> option string -> gmap string node -> ProcOut)
    (cmd : list string) :
  no_plain_exception (run_cmds0 tool cmd).
Proof.
  intros w w' e. rewrite run_cmds0_spec. cbn zeta.
  destruct (p_code _ =? 0); [discriminate|]. by intros [= <- <-].
Qed.

Lemma no_plain_exception_Popen_to
    (tool : nat -> list string -> option string -> gmap string node -> ProcOut)
    (argv : list string) (path : string) :
  no_plain_exception (Popen_to tool argv path).
Proof.
  intros w w' e. unfold Popen_to, Popen, Os.open_wt, Os.write_out.
  unfold bind, get_fs, put_fs, ret, raise.
  destruct (fs w !! path) as [[| |]|]; try discriminate; by intros [= <- <-].
Qed.

Ltac no_plain_exception_step :=
  first
    [ apply no_plain_exception_ret
    | apply no_plain_exception_logging
    | apply no_plain_exception_assert
    | apply no_plain_exception_path_exists
    | apply no_plain_exception_mkdir
    | apply no_plain_exception_rmtree
    | apply no_plain_exception_listdir
    | apply no_plain_exception_unlink
    | apply no_plain_exception_copyfile
    | apply no_plain_exception_run_cmds0
    | apply no_plain_exception_Popen_to
    | apply no_plain_exception_for_each; intros ?
    | apply no_plain_exception_bind; [|intros ?]
    | match goal with
      | |- no_plain_exception (if ?b then _ else _) => destruct b
      end ].

Lemma no_plain_exception_get_sra
    (tool : nat -> list string -> option string -> gmap string node -> ProcOut)
    (accession temp_folder : string) :
  no_plain_exception (get_sra tool accession temp_folder).
Proof.
  unfold get_sra, sra_download, sra_combine, set_up_sra_cache_folder.
  repeat no_plain_exception_step.
  unfold remove_part. repeat no_plain_exception_step.
Qed.

Lemma no_plain_exception_normalize_reads
    (tool : nat -> list string -> option string -> gmap string node -> ProcOut)
    (local_path : string) :
  no_plain_exception (normalize_reads tool local_path).
Proof.
  unfold normalize_reads. apply no_plain_exception_bind.
  - repeat no_plain_exception_step.
  - intros p. destruct (Py.last_char p) as [c|].
    + repeat no_plain_exception_step.
    + intros w w' e. by intros [= <- <-].
Qed.

(** C2, amended.  [get_reads_from_url] logs the input, the file name
    taken from it and the local path, and then goes by the prefix of the
    input, to one place and no other: [s3://] to the object-store copy
    [aws s3 cp] into the temporary folder; [ftp://], [https://] and
    [http://] to the URL fetch [wget -P]; [sra://] to [get_sra] for the
    accession; and every other input, whatever it starts with, to the local
    path, where a name that is not there raises the AssertionError "Input
    file does not exist" and one that is there is copied to the local path.
    No input makes it raise the Exception "Did not recognize prefix": that
    branch is never taken, and nothing else raises a bare Exception. *)
Theorem fetch_reads_dispatch
    (tool : nat -> list string -> option string -> gmap string node -> ProcOut)
    (input_str temp_folder : string) (w : World) :
  let local_path := Py.path_join temp_folder (basename input_str) in
  let told := ["Getting reads from " +:+ input_str;
               "Filename: " +:+ basename input_str;
               "Local path: " +:+ local_path] in
  fetch_reads tool input_str temp_folder w
  = (if Py.startswith "s3://" input_str then
       (run_cmds0 tool ["aws"; "s3"; "cp"; "--quiet"; "--sse"; "AES256";
                        input_str; temp_folder] ;;
        ret local_path)
         (logged (told ++ ["Getting reads from S3"]) w)
     else if Py.startswith "ftp://" input_str
             || Py.startswith "https://" input_str
             || Py.startswith "http://" input_str then
       (run_cmds0 tool ["wget"; "-P"; temp_folder; input_str] ;;
        ret local_path)
         (logged (told ++ ["Getting reads from FTP"]) w)
     else if Py.startswith "sra://" input_str then
       get_sra tool (basename input_str) temp_folder
         (logged (told ++ ["Getting reads from SRA: " +:+ basename input_str]) w)
     else
       match Os.follow (fs w) input_str with
       | None =>
           (logged (told ++ ["Treating as local path"]) w,
            Raised (AssertionError
                      ("Input file does not exist (" +:+ input_str +:+ ")")))
       | Some _ =>
           (Os.copyfile input_str local_path ;; ret local_path)
             (logged (told ++ ["Treating as local path";
                               "Making a copy in the temporary folder"]) w)
       end)
  /\ forall w' msg,
       get_reads_from_url tool input_str temp_folder w <> (w', Raised (Exception msg)).
Proof.
  intros local_path told.
  destruct (backend_of_prefix input_str) as [Hrec Hb].
  split.
  - unfold fetch_reads. fold local_path. rewrite Hb.
    do 3 (erewrite bind_ok by reflexivity).
    cbn [fs log spawned stack_room].
    assert (Hw : forall (L l : list string),
              L = log w ++ told ++ l ->
              mkWorld (fs w) L (spawned w) (stack_room w) = logged (told ++ l) w).
    { intros L l ->. reflexivity. }
    destruct (Py.startswith "s3://" input_str).
    { erewrite bind_ok by reflexivity. cbn [logging_info fs log spawned stack_room].
      erewrite Hw; [reflexivity|]. subst told. by rewrite <- !app_assoc. }
    destruct (Py.startswith "ftp://" input_str || Py.startswith "https://" input_str
              || Py.startswith "http://" input_str).
    { erewrite bind_ok by reflexivity. cbn [logging_info fs log spawned stack_room].
      erewrite Hw; [reflexivity|]. subst told. by rewrite <- !app_assoc. }
    destruct (Py.startswith "sra://" input_str).
    { cbn zeta. erewrite bind_ok by reflexivity.
      cbn [logging_info fs log spawned stack_room].
      erewrite Hw; [reflexivity|]. subst told. by rewrite <- !app_assoc. }
    erewrite bind_ok by reflexivity.
    erewrite bind_ok by (unfold Os.path_exists; reflexivity).
    cbn [logging_info fs log spawned stack_room].
    destruct (Os.follow (fs w) input_str) as [x|]; cbn [py_assert].
    + do 2 (erewrite bind_ok by reflexivity).
      cbn [logging_info fs log spawned stack_room].
      erewrite Hw; [reflexivity|]. subst told. by rewrite <- !app_assoc.
    + unfold bind, raise.
      erewrite Hw; [reflexivity|]. subst told. by rewrite <- !app_assoc.
  - intros w' msg Hrun.
    assert (Hnever : no_plain_exception (get_reads_from_url tool input_str temp_folder)).
    { unfold get_reads_from_url. apply no_plain_exception_bind;
        [|intros ?; apply no_plain_exception_normalize_reads].
      unfold fetch_reads. do 3 (apply no_plain_exception_bind;
        [apply no_plain_exception_logging|intros _]).
      destruct (backend_of input_str); [| | | |done].
      - repeat no_plain_exception_step.
      - repeat no_plain_exception_step.
      - repeat no_plain_exception_step.
      - cbn zeta. apply no_plain_exception_bind;
          [apply no_plain_exception_logging|intros _].
        apply no_plain_exception_get_sra. }
    exact (Hnever _ _ _ Hrun msg eq_refl).
Qed.

(** * Further properties of the script *)

(** ** [run_cmds]: what is logged *)

Lemma settle_log (code : Z) (c : bool) (w : World) :
  log w `prefix_of` log (fst (settle code c w))
  /\ spawned (fst (settle code c w)) = spawned w
  /\ fs (fst (settle code c w)) = fs w.
Proof.
  unfold settle, py_assert, bind, logging_info, ret, raise.
  destruct (negb (code =? 0) && c), (code =? 0); cbn;
    repeat split; try reflexivity; by apply prefix_app_r.
Qed.

Lemma prefix_two {A} (l : list A) (a b : A) (rest : list A) :
  (l ++ [a; b]) `prefix_of` (l ++ a :: b :: rest).
Proof. exists rest. by rewrite <- app_assoc. Qed.

Lemma attempt_log
    (tool : nat -> list string -> option string -> gmap string node -> ProcOut)
    (cmd : list string) (out : option string) (w : World) :
  (log w ++ ["Commands:"; Py.join " " cmd]) `prefix_of` log (fst (attempt tool cmd out w)).
Proof.
  destruct out as [path|].
  - assert (Hcase : fs w !! path = Some Dir \/ fs w !! path <> Some Dir).
    { destruct (fs w !! path) as [[| |]|]; (by left) || (by right). }
    destruct Hcase as [Hd|Hd].
    + unfold attempt, communicate, Popen_to, Os.open_wt.
      unfold bind, logging_info, get_fs, raise. cbn. rewrite Hd. cbn.
      by rewrite <- app_assoc.
    + rewrite (attempt_Some tool cmd path w Hd). cbn. apply prefix_two.
  - rewrite (attempt_None tool cmd w). cbn. apply prefix_two.
Qed.

Lemma run_cmds_from_log
    (tool : nat -> list string -> option string -> gmap string node -> ProcOut)
    (cmd : list string) (r : nat) :
  forall (c : bool) (out : option string) (w : World),
    (log w ++ ["Commands:"; Py.join " " cmd])
      `prefix_of` log (fst (run_cmds_from tool r cmd c out w)).
Proof.
  induction r as [|r IH]; intros c out w; rewrite run_cmds_from_unfold;
    pose proof (attempt_log tool cmd out w) as Ha;
    destruct (attempt tool cmd out w) as [w1 [code|e]]; cbn [fst] in Ha; try exact Ha.
  - etrans; [exact Ha|]. apply settle_log.
  - destruct (negb (code =? 0)).
    + rewrite retry_step. destruct (stack_room w1) as [|k].
      * cbn [fst logged log]. etrans; [exact Ha|]. by apply prefix_app_r.
      * match goal with
        | |- context [run_cmds_from tool r cmd false None ?w2] =>
            pose proof (IH false None w2) as Hr;
            destruct (run_cmds_from tool r cmd false None w2) as [w3 [v|e]]
        end; cbn [fst log with_room logged] in Hr |- *;
          (etrans; [exact Ha|]); (etrans; [|exact Hr]);
          rewrite <- app_assoc; by apply prefix_app_r.
    + etrans; [exact Ha|]. apply settle_log.
Qed.

(** X1.  Every call of [run_cmds] first logs "Commands:" and the argument
    vector joined by blanks: the two records follow what was in the log
    before the call, whether the call returns or raises, and even when the
    redirect file cannot be opened. *)
Theorem run_cmds_logs_command
    (tool : nat -> list string -> option string -> gmap string node -> ProcOut)
    (cmd : list string) (retry : Z) (c : bool) (out : option string) (w : World) :
  (log w ++ ["Commands:"; Py.join " " cmd])
    `prefix_of` log (fst (run_cmds tool cmd retry c out w)).
Proof. apply run_cmds_from_log. Qed.

Lemma attempt_spawn
    (tool : nat -> list string -> option string -> gmap string node -> ProcOut)
    (cmd : list string) (out : option string) (w : World) :
  exists j, (j <= 1)%nat
    /\ map sp_argv (spawned (fst (attempt tool cmd out w)))
       = map sp_argv (spawned w) ++ replicate j cmd.
Proof.
  destruct out as [path|].
  - assert (Hcase : fs w !! path = Some Dir \/ fs w !! path <> Some Dir).
    { destruct (fs w !! path) as [[| |]|]; (by left) || (by right). }
    destruct Hcase as [Hd|Hd].
    + exists 0%nat. split; [lia|].
      unfold attempt, communicate, Popen_to, Os.open_wt.
      unfold bind, logging_info, get_fs, raise. cbn. rewrite Hd. cbn.
      by rewrite app_nil_r.
    + exists 1%nat. split; [lia|]. rewrite (attempt_Some tool cmd path w Hd).
      cbn. by rewrite map_app.
  - exists 1%nat. split; [lia|]. rewrite (attempt_None tool cmd w).
    cbn. by rewrite map_app.
Qed.

(** X2.  A call of [run_cmds] starts its command at most [retry + 1] times
    and starts nothing else: the processes it adds to the history all have
    the argument vector it was given. *)
Theorem run_cmds_spawn_bound
    (tool : nat -> list string -> option string -> gmap string node -> ProcOut)
    (cmd : list string) (retry : Z) (c : bool) (out : option string) (w : World) :
  exists j,
    (j <= Z.to_nat retry + 1)%nat
    /\ map sp_argv (spawned (fst (run_cmds tool cmd retry c out w)))
       = map sp_argv (spawned w) ++ replicate j cmd.
Proof.
  unfold run_cmds. generalize (Z.to_nat retry) as r. intros r.
  revert c out w. induction r as [|r IH]; intros c out w;
    rewrite run_cmds_from_unfold.
  - destruct (attempt_spawn tool cmd out w) as (j & Hj & Hs).
    destruct (attempt tool cmd out w) as [w1 [code|e]]; cbn [fst] in Hs.
    + exists j. split; [lia|]. destruct (settle_log code c w1) as (_ & -> & _). exact Hs.
    + exists j. split; [lia|exact Hs].
  - destruct (attempt_spawn tool cmd out w) as (j & Hj & Hs).
    destruct (attempt tool cmd out w) as [w1 [code|e]]; cbn [fst] in Hs.
    + destruct (negb (code =? 0)).
      * rewrite retry_step. destruct (stack_room w1) as [|k].
        -- exists j. split; [lia|exact Hs].
        -- match goal with
           | |- context [run_cmds_from tool r cmd false None ?w2] =>
               destruct (IH false None w2) as (j' & Hj' & Hs');
               destruct (run_cmds_from tool r cmd false None w2) as [w3 [v|e]]
           end; cbn [fst spawned with_room logged] in Hs' |- *;
             exists (j + j')%nat; (split; [lia|]);
             by rewrite Hs', Hs, <- app_assoc, replicate_add.
      * exists j. split; [lia|].
        destruct (settle_log code c w1) as (_ & -> & _). exact Hs.
    + exists j. split; [lia|exact Hs].
Qed.

(** ** [return_results] *)

(** X3.  [return_results(fp, output_folder)] compresses first and copies
    second.  It starts [gzip fp]; when that exits non-zero it raises and no
    copy is started; otherwise it starts one copy of [fp + ".gz"] (never of
    [fp]): [aws s3 cp] with encryption asked for when the destination
    starts with [s3://], [mv] otherwise, and raises when the copy exits
    non-zero. *)
Theorem return_results_gzip_then_copy
    (tool : nat -> list string -> option string -> gmap string node -> ProcOut)
    (fp output_folder : string) (w : World) :
  let gz := ["gzip"; fp] in
  let copy := if Py.startswith "s3://" output_folder
              then ["aws"; "s3"; "cp"; "--quiet"; "--sse"; "AES256";
                    fp +:+ ".gz"; output_folder]
              else ["mv"; fp +:+ ".gz"; output_folder] in
  let w1 := after_run tool gz w in
  let c1 := p_code (tool (length (spawned w)) gz None (fs w)) in
  let c2 := p_code (tool (length (spawned w1)) copy None (fs w1)) in
  return_results tool fp output_folder true w
  = if c1 =? 0 then
      (after_run tool copy w1,
       if c2 =? 0 then Ok tt
       else Raised (AssertionError ("Exit code " +:+ Py.str_int c2)))
    else (w1, Raised (AssertionError ("Exit code " +:+ Py.str_int c1))).
Proof.
  intros gz copy w1 c1 c2. unfold return_results.
  unfold bind at 1. unfold bind at 1. rewrite run_cmds0_spec. cbn zeta.
  fold gz w1 c1. destruct (c1 =? 0); [|reflexivity].
  cbn [ret]. subst copy c2.
  destruct (Py.startswith "s3://" output_folder);
    unfold bind; rewrite run_cmds0_spec; cbn zeta;
    by destruct (p_code _ =? 0).
Qed.

(** ** [exit_and_clean_up] *)

(** X4.  [exit_and_clean_up] never returns to its caller and never starts a
    process.  When the temporary folder is a directory it is removed with
    all below it and the call ends in [sys.exit] of the exception being
    handled; when it is anything else, [rmtree] raises, nothing is removed
    and the exception handled is lost to the OSError.  Either way the exit
    status is 1. *)
Theorem exit_and_clean_up_never_returns {A}
    (format_tb : exn -> list string) (exc : exn) (temp : string) (w : World) :
  exists w' e,
    exit_and_clean_up (A := A) format_tb exc temp w = (w', Raised e)
    /\ spawned w' = spawned w
    /\ exit_status (Raised (A := A) e) = 1
    /\ match fs w !! temp with
       | Some Dir =>
           e = SystemExit (ExitObj exc)
           /\ fs w' = filter (fun kv => Os.under temp (fst kv) = false) (fs w)
       | _ => (exists msg, e = OSError msg) /\ fs w' = fs w
       end.
Proof.
  unfold exit_and_clean_up, sys_exit, raise.
  unfold bind at 1. cbn [logging_info].
  unfold bind at 1. rewrite for_each_logging.
  unfold bind at 1. cbn [logging_info fs log spawned stack_room].
  unfold bind at 1. unfold Os.rmtree, bind at 1, get_fs, put_fs, raise. cbn.
  destruct (fs w !! temp) as [[| |]|]; cbn; eexists _, _;
    (split; [reflexivity|]); cbn; repeat split; eauto.
Qed.

(** ** [get_reads_from_url]: where the reads land *)

Lemma split_char_cons (c a : ascii) (s : string) :
  Py.split_char c (String a s)
  = if Ascii.eqb a c then "" :: Py.split_char c s
    else match Py.split_char c s with
         | [] => [String a ""]
         | w :: ws => String a w :: ws
         end.
Proof. reflexivity. Qed.

Lemma split_char_nonempty (c : ascii) (s : string) : Py.split_char c s <> [].
Proof.
  destruct s as [|a s]; [done|]. rewrite split_char_cons.
  destruct (Ascii.eqb a c); [done|]. by destruct (Py.split_char c s).
Qed.

(** [c.join(s.split(c)) == s] *)
Lemma join_split_char (c : ascii) (s : string) :
  Py.join (String c "") (Py.split_char c s) = s.
Proof.
  unfold Py.join. induction s as [|a s IH]; [reflexivity|].
  rewrite split_char_cons. pose proof (split_char_nonempty c s) as Hne.
  destruct (Py.split_char c s) as [|w ws] eqn:E; [done|].
  destruct (Ascii.eqb_spec a c) as [->|Ha].
  - change (String.concat (String c "") ("" :: w :: ws))
      with ("" +:+ String c "" +:+ String.concat (String c "") (w :: ws)).
    by rewrite IH.
  - destruct ws as [|w' ws].
    + cbn in IH |- *. by rewrite IH.
    + change (String.concat (String c "") (String a w :: w' :: ws))
        with (String a w +:+ String c "" +:+ String.concat (String c "") (w' :: ws)).
      rewrite app_String. f_equal. exact IH.
Qed.

Lemma no_slash_in_segments (s w : string) :
  w ∈ Py.split_char "/" s -> Os.has_slash w = false.
Proof.
  revert w. induction s as [|a s IH]; intros w Hw.
  - apply list_elem_of_singleton in Hw as ->. reflexivity.
  - rewrite split_char_cons in Hw. pose proof (split_char_nonempty "/" s) as Hne.
    destruct (Py.split_char "/" s) as [|v vs] eqn:E; [done|].
    destruct (Ascii.eqb_spec a "/") as [->|Ha].
    + apply elem_of_cons in Hw as [->|Hw]; [reflexivity|by apply IH].
    + apply elem_of_cons in Hw as [->|Hw].
      * rewrite has_slash_cons, (IH v) by left.
        by assert (Ascii.eqb a "/" = false) as -> by by apply Ascii.eqb_neq.
      * apply IH. by right.
Qed.

Lemma concat_ends_with_last (sep : string) (l : list string) :
  exists pre, String.concat sep l = pre +:+ List.last l "".
Proof.
  induction l as [|x l [pre IH]]; [by exists ""|].
  destruct l as [|y l]; [by exists ""|].
  change (String.concat sep (x :: y :: l)) with (x +:+ sep +:+ String.concat sep (y :: l)).
  change (List.last (x :: y :: l) "") with (List.last (y :: l) "").
  exists (x +:+ sep +:+ pre). by rewrite IH, !app_assoc_s.
Qed.

Lemma last_in (l : list string) : l <> [] -> List.last l "" ∈ l.
Proof.
  induction l as [|x l IH]; [done|]. intros _.
  destruct l as [|y l]; [by left|]. right. by apply IH.
Qed.

Lemma split_char_no_slash (s : string) :
  Os.has_slash s = false -> Py.split_char "/" s = [s].
Proof.
  induction s as [|a s IH]; [reflexivity|].
  rewrite has_slash_cons, split_char_cons.
  intros [Ha Hs]%orb_false_iff. by rewrite Ha, (IH Hs).
Qed.

Lemma split_char_after_slash (pre name : string) :
  Os.has_slash name = false ->
  exists l, Py.split_char "/" (pre +:+ "/" +:+ name) = l ++ [name] /\ l <> [].
Proof.
  intros Hname. induction pre as [|a pre (l & IH & Hl)].
  - exists [""]. split; [|done].
    change ("" +:+ "/" +:+ name) with (String "/" name).
    by rewrite split_char_cons, (split_char_no_slash name Hname).
  - rewrite app_String, split_char_cons, IH.
    destruct (Ascii.eqb a "/").
    + exists ("" :: l). by split.
    + destruct l as [|x l]; [done|]. exists (String a x :: l). by split.
Qed.

(** X5.  The name under which the reads are expected in the temporary
    folder is the text after the last slash of the input.  That text has no
    slash, the input ends with it, and [local_path] is the temporary
    folder, a slash unless the folder's name ends in one, and that text.
    Whatever is written after the last slash is taken as it is: an input
    that ends in a slash gives the empty name, and one that ends in [/.]
    or [/..] gives [.] or [..], so that [local_path] is then a name of the
    temporary folder itself or of the folder above it. *)
Theorem local_path_in_workspace (input_str temp_folder : string) :
  temp_folder <> "" ->
  Os.has_slash (basename input_str) = false
  /\ (exists pre, input_str = pre +:+ basename input_str)
  /\ Py.path_join temp_folder (basename input_str)
     = Os.with_slash temp_folder +:+ basename input_str
  /\ (forall pre name,
        Os.has_slash name = false ->
        input_str = pre +:+ "/" +:+ name ->
        basename input_str = name
        /\ Py.path_join temp_folder (basename input_str)
           = Os.with_slash temp_folder +:+ name).
Proof.
  intros Htemp.
  assert (Hs : Os.has_slash (basename input_str) = false).
  { apply (no_slash_in_segments input_str). apply last_in, split_char_nonempty. }
  assert (Hj : Py.path_join temp_folder (basename input_str)
               = Os.with_slash temp_folder +:+ basename input_str)
    by by apply path_join_entry.
  split; [exact Hs|]. split; [|split; [exact Hj|]].
  - destruct (concat_ends_with_last "/" (Py.split_char "/" input_str)) as [pre Hpre].
    exists pre. fold (Py.join "/" (Py.split_char "/" input_str)) in Hpre.
    by rewrite join_split_char in Hpre.
  - intros pre name Hname Hin.
    assert (Hb : basename input_str = name).
    { unfold basename. rewrite Hin.
      destruct (split_char_after_slash pre name Hname) as (l & -> & _).
      apply last_last. }
    split; [exact Hb|]. by rewrite Hj, Hb.
Qed.

Lemma local_path_in_workspace_witness :
  basename "s3://bucket/run7/reads.fastq.gz" = "reads.fastq.gz"
  /\ Py.path_join "/share/ab12cd34" (basename "s3://bucket/run7/reads.fastq.gz")
     = "/share/ab12cd34/reads.fastq.gz"
  /\ Py.path_join "/share/ab12cd34" (basename "s3://bucket/run7/")
     = "/share/ab12cd34/"
  /\ Py.path_join "/share/ab12cd34" (basename "s3://bucket/run7/..")
     = "/share/ab12cd34/..".
Proof.
  destruct (local_path_in_workspace "s3://bucket/run7/reads.fastq.gz" "/share/ab12cd34")
    as (_ & _ & Hj & _); [discriminate|].
  destruct (local_path_in_workspace "s3://bucket/run7/" "/share/ab12cd34")
    as (_ & _ & _ & Hd); [discriminate|].
  destruct (local_path_in_workspace "s3://bucket/run7/.." "/share/ab12cd34")
    as (_ & _ & _ & Hp); [discriminate|].
  split; [reflexivity|]. split; [exact Hj|]. split.
  - exact (proj2 (Hd "s3://bucket/run7" "" eq_refl eq_refl)).
  - exact (proj2 (Hp "s3://bucket/run7" ".." eq_refl eq_refl)).
Defined.

Lemma path_exists_spec (p : string) (w : World) :
  Os.path_exists p w
  = (w, Ok (match Os.follow (fs w) p with Some _ => true | None => false end)).
Proof. reflexivity. Qed.

Lemma copyfile_spec (src dst c : string) (w : World) :
  src <> dst ->
  Os.follow (fs w) src = Some (File c) ->
  Os.place_error (fs w) dst = None ->
  fs w !! dst <> Some Dir ->
  Os.copyfile src dst w
  = (mkWorld (<[dst := File c]> (fs w)) (log w) (spawned w) (stack_room w), Ok tt).
Proof.
  intros Hne Hsrc Hplace Hdst. unfold Os.copyfile, Os.open_wt, Os.write_out.
  unfold bind at 1, get_fs at 1.
  assert (String.eqb src dst = false) as -> by by apply String.eqb_neq.
  rewrite Hsrc, Hplace. unfold bind, get_fs, put_fs. cbn.
  destruct (fs w !! dst) as [[| |]|] eqn:E; try done; cbn;
    by rewrite insert_insert_eq.
Qed.

Lemma copyfile_no_place (src dst c msg : string) (w : World) :
  src <> dst ->
  Os.follow (fs w) src = Some (File c) ->
  Os.place_error (fs w) dst = Some msg ->
  Os.copyfile src dst w = (w, Raised (IOError msg)).
Proof.
  intros Hne Hsrc Hplace. unfold Os.copyfile.
  unfold bind at 1, get_fs at 1.
  assert (String.eqb src dst = false) as -> by by apply String.eqb_neq.
  by rewrite Hsrc, Hplace.
Qed.

(** X6.  An input that has none of the five prefixes and names a plain
    file is copied to its last segment inside the temporary folder, and no
    process is started.  When the folder the copy goes into is there, the
    call returns [local_path], [local_path] holds the content of the input,
    and no other path is created or removed.  When it is not (or
    [local_path] is the name of a directory), the copy raises the IOError
    of [open] and no path is created. *)
Theorem local_input_is_copied
    (tool : nat -> list string -> option string -> gmap string node -> ProcOut)
    (input_str temp_folder c : string) (w : World) :
  let local_path := Py.path_join temp_folder (basename input_str) in
  backend_of input_str = LocalCopy ->
  Os.follow (fs w) input_str = Some (File c) ->
  input_str <> local_path ->
  (Os.place_error (fs w) local_path = None ->
   fs w !! local_path <> Some Dir ->
   exists w',
     fetch_reads tool input_str temp_folder w = (w', Ok local_path)
     /\ fs w' !! local_path = Some (File c)
     /\ dom (fs w') =@{gset string} {[ local_path ]} ∪ dom (fs w)
     /\ spawned w' = spawned w)
  /\ (forall msg,
        Os.place_error (fs w) local_path = Some msg ->
        exists w',
          fetch_reads tool input_str temp_folder w = (w', Raised (IOError msg))
          /\ dom (fs w') =@{gset string} dom (fs w)
          /\ spawned w' = spawned w).
Proof.
  intros local_path Hb Hsrc Hne. unfold fetch_reads. rewrite Hb.
  fold local_path.
  split.
  - intros Hplace Hdst.
    do 4 (erewrite bind_ok by reflexivity).
    rewrite (bind_ok _ _ _ _ _ (path_exists_spec _ _)). cbn [fs].
    rewrite Hsrc. cbn [py_assert].
    do 2 (erewrite bind_ok by reflexivity).
    erewrite bind_ok by (by apply (copyfile_spec _ _ c)).
    eexists. split; [reflexivity|]. cbn. split; [apply lookup_insert_eq|].
    split; [apply dom_insert_L|reflexivity].
  - intros msg Hplace.
    do 4 (erewrite bind_ok by reflexivity).
    rewrite (bind_ok _ _ _ _ _ (path_exists_spec _ _)). cbn [fs].
    rewrite Hsrc. cbn [py_assert].
    do 2 (erewrite bind_ok by reflexivity).
    unfold bind. rewrite (copyfile_no_place _ _ c msg) by done.
    eexists. split; [reflexivity|]. split; reflexivity.
Qed.

Lemma local_input_is_copied_witness :
  let input := "/data/reads.fasta" in
  let local_path := "/share/ab12cd34/reads.fasta" in
  backend_of input = LocalCopy
  /\ Os.follow (fs local_start) input = Some (File ">r1")
  /\ Os.place_error (fs local_start) local_path = None
  /\ (exists w',
        fetch_reads (lab lab_fine) input "/share/ab12cd34" local_start
        = (w', Ok local_path)
        /\ fs w' !! local_path = Some (File ">r1")
        /\ spawned w' = [])
  /\ Os.place_error (fs host) local_path
     = Some "[Errno 2] No such file or directory: '/share/ab12cd34/reads.fasta'"
  /\ exists w',
       fetch_reads (lab lab_fine) input "/share/ab12cd34" host
       = (w', Raised (IOError
                        "[Errno 2] No such file or directory: '/share/ab12cd34/reads.fasta'"))
       /\ spawned w' = [].
Proof.
  intros input local_path.
  assert (H1 : backend_of input = LocalCopy) by (vm_compute; reflexivity).
  assert (H2 : Os.follow (fs local_start) input = Some (File ">r1"))
    by (vm_compute; reflexivity).
  assert (H3 : Os.place_error (fs local_start) local_path = None)
    by (vm_compute; reflexivity).
  assert (H4 : Os.follow (fs host) input = Some (File ">r1")) by (vm_compute; reflexivity).
  assert (H5 : Os.place_error (fs host) local_path
               = Some "[Errno 2] No such file or directory: '/share/ab12cd34/reads.fasta'")
    by (vm_compute; reflexivity).
  assert (Hne : input <> Py.path_join "/share/ab12cd34" (basename input))
    by (vm_compute; discriminate).
  split; [exact H1|]. split; [exact H2|]. split; [exact H3|]. split; [|split; [exact H5|]].
  - destruct (proj1 (local_input_is_copied (lab lab_fine) input "/share/ab12cd34" ">r1"
                       local_start H1 H2 Hne) H3)
      as (w' & Hrun & Hfs & _ & Hsp).
    + vm_compute. discriminate.
    + exists w'. split; [exact Hrun|]. split; [exact Hfs|exact Hsp].
  - destruct (proj2 (local_input_is_copied (lab lab_fine) input "/share/ab12cd34" ">r1"
                       host H1 H4 Hne) _ H5)
      as (w' & Hrun & _ & Hsp).
    exists w'. split; [exact Hrun|exact Hsp].
Defined.

(** X7.  An input that has none of the five prefixes and names nothing on
    the file system makes [get_reads_from_url] raise the AssertionError
    "Input file does not exist (<input>)" after four records in the log:
    no process is started and no path is created or removed. *)
Theorem missing_local_input_raises
    (tool : nat -> list string -> option string -> gmap string node -> ProcOut)
    (input_str temp_folder : string) (w : World) :
  backend_of input_str = LocalCopy ->
  Os.follow (fs w) input_str = None ->
  exists w',
    get_reads_from_url tool input_str temp_folder w
    = (w', Raised (AssertionError ("Input file does not exist (" +:+ input_str +:+ ")")))
    /\ log w'
       = log w ++ ["Getting reads from " +:+ input_str;
                   "Filename: " +:+ basename input_str;
                   "Local path: " +:+ Py.path_join temp_folder (basename input_str);
                   "Treating as local path"]
    /\ dom (fs w') =@{gset string} dom (fs w)
    /\ spawned w' = spawned w.
Proof.
  intros Hb Hsrc. unfold get_reads_from_url, fetch_reads. rewrite Hb.
  unfold bind at 1.
  do 4 (erewrite bind_ok by reflexivity).
  rewrite (bind_ok _ _ _ _ _ (path_exists_spec _ _)). cbn [fs].
  rewrite Hsrc. cbn [py_assert]. unfold bind, raise.
  eexists. split; [reflexivity|]. cbn [log fs spawned].
  split; [by rewrite <- !app_assoc|]. split; reflexivity.
Qed.

Lemma missing_local_input_raises_witness :
  backend_of "/data/nothing.fastq" = LocalCopy
  /\ Os.follow (fs local_start) "/data/nothing.fastq" = None
  /\ exists w',
       get_reads_from_url (lab lab_fine) "/data/nothing.fastq" "/share/ab12cd34"
         local_start
       = (w', Raised (AssertionError "Input file does not exist (/data/nothing.fastq)"))
       /\ spawned w' = [].
Proof.
  assert (H1 : backend_of "/data/nothing.fastq" = LocalCopy) by (vm_compute; reflexivity).
  assert (H2 : Os.follow (fs local_start) "/data/nothing.fastq" = None)
    by (vm_compute; reflexivity).
  split; [exact H1|]. split; [exact H2|].
  destruct (missing_local_input_raises (lab lab_fine) _ "/share/ab12cd34" local_start H1 H2)
    as (w' & Hrun & _ & _ & Hsp).
  exists w'. split; [exact Hrun|exact Hsp].
Defined.

(** X8.  For an [s3://] input and for an [ftp://], [https://] or [http://]
    input, one download command is started and its exit code decides: on a
    non-zero code [get_reads_from_url] raises "Exit code <c>" and nothing
    is unzipped or converted; on zero the path handed on is the last
    segment of the input inside the temporary folder, as computed from the
    input and without a look at what the command wrote. *)
Theorem download_exit_code_decides
    (tool : nat -> list string -> option string -> gmap string node -> ProcOut)
    (input_str temp_folder : string) (w : World) :
  let local_path := Py.path_join temp_folder (basename input_str) in
  let cmd := match backend_of input_str with
             | ObjectStore => ["aws"; "s3"; "cp"; "--quiet"; "--sse"; "AES256";
                               input_str; temp_folder]
             | _ => ["wget"; "-P"; temp_folder; input_str]
             end in
  backend_of input_str = ObjectStore \/ backend_of input_str = UrlFetch ->
  exists w0 : World,
    fs w0 = fs w /\ spawned w0 = spawned w
    /\ let code := p_code (tool (length (spawned w)) cmd None (fs w)) in
       (code <> 0 ->
        get_reads_from_url tool input_str temp_folder w
        = (after_run tool cmd w0,
           Raised (AssertionError ("Exit code " +:+ Py.str_int code))))
       /\ (code = 0 ->
           fetch_reads tool input_str temp_folder w
           = (after_run tool cmd w0, Ok local_path)).
Proof.
  intros local_path cmd Hb. unfold get_reads_from_url, fetch_reads.
  fold local_path.
  destruct Hb as [Hb|Hb]; subst cmd; rewrite Hb;
    eexists (mkWorld (fs w) _ (spawned w) (stack_room w));
    (split; [reflexivity|]); (split; [reflexivity|]);
    cbn zeta; split; intros Hc.
  - unfold bind at 1. do 4 (erewrite bind_ok by reflexivity).
    unfold bind at 1. rewrite run_cmds0_spec. cbn zeta. cbn [fs spawned stack_room].
    by destruct (Z.eqb_spec (p_code (tool (length (spawned w))
         ["aws"; "s3"; "cp"; "--quiet"; "--sse"; "AES256"; input_str; temp_folder]
         None (fs w))) 0).
  - do 4 (erewrite bind_ok by reflexivity).
    unfold bind at 1. rewrite run_cmds0_spec. cbn zeta. cbn [fs spawned stack_room].
    by rewrite Hc.
  - unfold bind at 1. do 4 (erewrite bind_ok by reflexivity).
    unfold bind at 1. rewrite run_cmds0_spec. cbn zeta. cbn [fs spawned stack_room].
    by destruct (Z.eqb_spec (p_code (tool (length (spawned w))
         ["wget"; "-P"; temp_folder; input_str] None (fs w))) 0).
  - do 4 (erewrite bind_ok by reflexivity).
    unfold bind at 1. rewrite run_cmds0_spec. cbn zeta. cbn [fs spawned stack_room].
    by rewrite Hc.
Qed.

Lemma download_exit_code_decides_witness :
  let input := "https://host/runs/reads.fasta" in
  backend_of input = UrlFetch
  /\ (exists w',
        get_reads_from_url (flaky 9 4) input "/share/ab12cd34" host
        = (w', Raised (AssertionError "Exit code 4"))
        /\ map sp_argv (spawned w') = [["wget"; "-P"; "/share/ab12cd34"; input]])
  /\ (exists w',
        fetch_reads (flaky 0 4) input "/share/ab12cd34" host
        = (w', Ok "/share/ab12cd34/reads.fasta")
        /\ fs w' !! "/share/ab12cd34/reads.fasta" = None).
Proof.
  intros input.
  assert (Hb : backend_of input = UrlFetch) by (vm_compute; reflexivity).
  split; [exact Hb|]. split.
  - destruct (download_exit_code_decides (flaky 9 4) input "/share/ab12cd34" host
                (or_intror Hb)) as (w0 & Hf & Hs & Hfail & _).
    eexists. split; [apply Hfail; vm_compute; discriminate|].
    unfold after_run. cbn [spawned]. rewrite Hs. vm_compute. reflexivity.
  - destruct (download_exit_code_decides (flaky 0 4) input "/share/ab12cd34" host
                (or_intror Hb)) as (w0 & Hf & Hs & _ & Hok).
    eexists. split; [apply Hok; vm_compute; reflexivity|].
    unfold after_run. cbn [fs]. rewrite Hf, Hs. vm_compute. reflexivity.
Defined.

(** ** [get_sra] and [set_up_sra_cache_folder]: what stops them *)

(** X9.  When, after the export, no entry of the temporary folder starts
    with the accession and ends in [fastq], the rest of [get_sra] raises
    the AssertionError "File could not be downloaded from SRA:
    <accession>" at once: no shell is started, no temporary file is
    created and nothing is removed. *)
Theorem sra_without_reads_raises
    (tool : nat -> list string -> option string -> gmap string node -> ProcOut)
    (accession temp_folder : string) (wc : World) :
  temp_folder <> "" ->
  fs wc !! temp_folder = Some Dir ->
  (forall n, n ∈ Os.entries (fs wc) temp_folder -> sra_part accession n = false) ->
  sra_combine tool accession temp_folder wc
  = (wc, Raised (AssertionError ("File could not be downloaded from SRA: " +:+ accession))).
Proof.
  intros Htemp Hdir Hnone. unfold sra_combine.
  rewrite (bind_ok _ _ _ _ _ (listdir_dir temp_folder wc Htemp Hdir)).
  assert (Hex : existsb (sra_part accession) (Os.entries (fs wc) temp_folder) = false).
  { apply not_true_is_false. intros Hex. apply existsb_exists in Hex as (n & Hn & Hp).
    apply list_elem_of_In in Hn. by rewrite (Hnone n Hn) in Hp. }
  rewrite Hex. reflexivity.
Qed.

Lemma sra_without_reads_raises_witness :
  let wc := fst (init_run "ab12cd34" (lab_args "sra://SRR000009") host) in
  fs wc !! "/share/ab12cd34" = Some Dir
  /\ Os.entries (fs wc) "/share/ab12cd34" = ["S1.log.txt"]
  /\ sra_combine (lab lab_fine) "SRR000009" "/share/ab12cd34" wc
     = (wc, Raised (AssertionError "File could not be downloaded from SRA: SRR000009")).
Proof.
  intros wc.
  assert (Hd : fs wc !! "/share/ab12cd34" = Some Dir) by (vm_compute; reflexivity).
  assert (He : Os.entries (fs wc) "/share/ab12cd34" = ["S1.log.txt"])
    by (vm_compute; reflexivity).
  split; [exact Hd|]. split; [exact He|].
  apply (sra_without_reads_raises (lab lab_fine) "SRR000009" "/share/ab12cd34" wc);
    [discriminate|exact Hd|].
  rewrite He. intros n Hn. apply list_elem_of_singleton in Hn as ->. reflexivity.
Defined.



(** ** The main program *)

(** X11.  A temporary folder that is already there is left alone: when the
    name made of [--temp-folder] and the eight characters of the UUID
    exists, the first [assert] fails, the run ends with status 1, and the
    world is as it was, with nothing written, logged, started or removed. *)
Theorem existing_workspace_left_alone
    (tool : nat -> list string -> option string -> gmap string node -> ProcOut)
    (format_tb : exn -> list string) (uuid8 elapsed : string)
    (args : Args) (w : World) :
  Os.follow (fs w) (workspace uuid8 args) <> None ->
  main tool format_tb uuid8 elapsed args w = (w, Raised (AssertionError ""))
  /\ run_script tool format_tb uuid8 elapsed args w = (w, 1).
Proof.
  intros Hex.
  assert (Hmain : main tool format_tb uuid8 elapsed args w
                  = (w, Raised (AssertionError ""))).
  { unfold main, init_run. unfold bind at 1.
    rewrite (bind_ok _ _ _ _ _ (path_exists_spec _ _)).
    by destruct (Os.follow (fs w) (workspace uuid8 args)). }
  split; [exact Hmain|]. unfold run_script. by rewrite Hmain.
Qed.

Lemma existing_workspace_left_alone_witness :
  let taken := mkWorld (<["/share/ab12cd34" := Dir]> (fs host)) [] [] script_room in
  Os.follow (fs taken) (workspace "ab12cd34" (lab_args "/data/reads.fasta")) <> None
  /\ lab_run lab_fine "/data/reads.fasta" <> (host, 1)
  /\ run_script (lab lab_fine) lab_tb "ab12cd34" "12.5" (lab_args "/data/reads.fasta") taken
     = (taken, 1).
Proof.
  intros taken.
  assert (H : Os.follow (fs taken) (workspace "ab12cd34" (lab_args "/data/reads.fasta"))
              <> None) by (vm_compute; discriminate).
  split; [exact H|]. split.
  - intros Heq. apply (f_equal snd) in Heq. vm_compute in Heq. discriminate.
  - exact (proj2 (existing_workspace_left_alone (lab lab_fine) lab_tb "ab12cd34" "12.5"
                    (lab_args "/data/reads.fasta") taken H)).
Defined.

Lemma bind_inv {A B} (m : M A) (k : A -> M B) (w w' : World) (b : B) :
  bind m k w = (w', Ok b) ->
  exists w1 a, m w = (w1, Ok a) /\ k a w1 = (w', Ok b).
Proof.
  unfold bind. destruct (m w) as [w1 [a|e]]; [eauto|discriminate].
Qed.

Lemma verify_one (fp : string) (w : World) :
  (do e <- Os.path_exists fp;
   py_assert e "" ;;
   do size <- Os.stat_size fp;
   py_assert (0 <? size) "") w
  = (w, if output_ok (fs w) fp then Ok tt else Raised (AssertionError "")).
Proof.
  unfold output_ok, Os.stat_size, Os.path_exists, bind, get_fs, py_assert, ret, raise.
  destruct (Os.follow (fs w) fp) as [[c| |]|] eqn:E; cbn; rewrite ?E; try reflexivity.
  destruct (Z.of_nat (String.length c)); reflexivity.
Qed.

Lemma verify_outputs (fa csv : string) (w : World) :
  for_each [fa; csv] (fun fp =>
    do e <- Os.path_exists fp;
    py_assert e "" ;;
    do size <- Os.stat_size fp;
    py_assert (0 <? size) "") w
  = (w, if output_ok (fs w) fa && output_ok (fs w) csv then Ok tt
        else Raised (AssertionError "")).
Proof.
  cbn [for_each]. unfold bind at 1. rewrite verify_one.
  destruct (output_ok (fs w) fa); [|reflexivity].
  unfold bind at 1. rewrite verify_one.
  by destruct (output_ok (fs w) csv).
Qed.

(** X12.  Outputs that fail the check are not published, and nothing is
    cleaned up either.  When the fetch and the clustering command have gone
    through and the FASTA or the CSV output is missing or empty, the run
    ends in the AssertionError of the check with status 1: no [gzip], [mv]
    or [aws] is started, and every path but the log file is as the
    clustering command left it, the temporary folder included. *)
Theorem unverified_outputs_not_published
    (tool : nat -> list string -> option string -> gmap string node -> ProcOut)
    (format_tb : exn -> list string) (uuid8 elapsed : string)
    (args : Args) (w0 w1 wf w3 : World) (read_fps : string) (v : retval) :
  init_run uuid8 args w0 = (w1, Ok tt) ->
  get_reads_from_url tool (a_input args) (workspace uuid8 args) w1 = (wf, Ok read_fps) ->
  run_cmds0 tool (swarm_command uuid8 args read_fps)
    (logged ["FASTA output: " +:+ fasta_out uuid8 args;
             "CSV output: " +:+ csv_out uuid8 args] wf)
  = (w3, Ok v) ->
  output_ok (fs w3) (fasta_out uuid8 args) && output_ok (fs w3) (csv_out uuid8 args)
  = false ->
  exists w',
    main tool format_tb uuid8 elapsed args w0 = (w', Raised (AssertionError ""))
    /\ run_script tool format_tb uuid8 elapsed args w0 = (w', 1)
    /\ (forall k, k <> log_fp uuid8 args -> fs w' !! k = fs w3 !! k)
    /\ spawned w' = spawned w3.
Proof.
  intros Hinit Hfetch Hswarm Hbad.
  assert (Hmain : exists w',
            main tool format_tb uuid8 elapsed args w0 = (w', Raised (AssertionError ""))
            /\ fs w' = fs w3 /\ spawned w' = spawned w3).
  { unfold main. rewrite (bind_ok _ _ _ _ _ Hinit).
    unfold bind at 1, try_except at 1. rewrite Hfetch.
    unfold bind at 1, logging_info at 1. unfold bind at 1, logging_info at 1.
    cbn [fs log spawned stack_room]. rewrite <- app_assoc. cbn [app].
    unfold bind at 1, try_except at 1. unfold logged in Hswarm. rewrite Hswarm.
    unfold bind at 1, logging_info at 1.
    unfold bind at 1. rewrite verify_outputs. cbn [fs]. rewrite Hbad.
    eexists. split; [reflexivity|]. split; reflexivity. }
  destruct Hmain as (w' & Hmain & Hfs & Hsp).
  exists w'. split; [exact Hmain|]. split; [|split; [|exact Hsp]].
  - unfold run_script. by rewrite Hmain.
  - intros k _. by rewrite Hfs.
Qed.

Lemma unverified_outputs_not_published_witness :
  output_ok (fs local_clustered) "/share/ab12cd34/S1.swarm.csv" = false
  /\ exists w',
       run_script (lab lab_empty_csv) lab_tb "ab12cd34" "12.5"
         (lab_args "/data/reads.fasta") host = (w', 1)
       /\ fs w' !! "/share/ab12cd34" = Some Dir
       /\ fs w' !! "/share/ab12cd34/S1.swarm.csv" = Some (File "")
       /\ spawned w' = spawned local_clustered.
Proof.
  split; [vm_compute; reflexivity|].
  destruct (unverified_outputs_not_published (lab lab_empty_csv) lab_tb "ab12cd34" "12.5"
              (lab_args "/data/reads.fasta") host local_start local_fetched
              local_clustered "/share/ab12cd34/reads.fasta" RetNone)
    as (w' & _ & Hrun & Hfs & Hsp).
  - vm_compute. reflexivity.
  - vm_compute. reflexivity.
  - vm_compute. reflexivity.
  - vm_compute. reflexivity.
  - exists w'. split; [exact Hrun|].
    split; [|split; [|exact Hsp]].
    + rewrite Hfs by (vm_compute; discriminate). vm_compute. reflexivity.
    + rewrite Hfs by (vm_compute; discriminate). vm_compute. reflexivity.
Defined.

Lemma exit_and_clean_up_raises {A}
    (format_tb : exn -> list string) (exc : exn) (temp : string) (w : World) :
  exists w' e,
    exit_and_clean_up (A := A) format_tb exc temp w = (w', Raised e)
    /\ exit_status (Raised (A := unit) e) = 1.
Proof.
  unfold exit_and_clean_up, sys_exit, raise.
  unfold bind at 1. cbn [logging_info].
  unfold bind at 1. rewrite for_each_logging.
  unfold bind at 1. cbn [logging_info fs log spawned stack_room].
  unfold bind at 1. unfold Os.rmtree, bind at 1, get_fs, put_fs, raise. cbn.
  destruct (fs w !! temp) as [[| |]|]; cbn; eexists _, _; split; reflexivity.
Qed.

Lemma try_cleanup_inv {A}
    (format_tb : exn -> list string) (temp : string) (m : M A)
    (w w' : World) (a : A) :
  try_except m (fun exc => exit_and_clean_up format_tb exc temp) w = (w', Ok a) ->
  m w = (w', Ok a).
Proof.
  unfold try_except. destruct (m w) as [w1 [a1|e1]]; [done|].
  destruct (exit_and_clean_up_raises (A := A) format_tb e1 temp w1) as (w2 & e2 & H & _).
  rewrite H. discriminate.
Qed.

Lemma return_results_ok
    (tool : nat -> list string -> option string -> gmap string node -> ProcOut)
    (fp output_folder : string) (w w' : World) (u : unit) :
  return_results tool fp output_folder true w = (w', Ok u) ->
  map sp_argv (spawned w')
  = map sp_argv (spawned w) ++ publish_commands output_folder fp.
Proof.
  unfold return_results, publish_commands.
  unfold bind at 1. unfold bind at 1. rewrite run_cmds0_spec. cbn zeta.
  destruct (p_code _ =? 0); [|discriminate]. cbn [ret].
  destruct (Py.startswith "s3://" output_folder);
    unfold bind; rewrite run_cmds0_spec; cbn zeta;
    (destruct (p_code _ =? 0); [|discriminate]);
    intros [= <-]; cbn [after_run spawned];
    rewrite !map_app, <- app_assoc; reflexivity.
Qed.

(** X13.  A run that reaches its end has checked and published.  When the
    main program ends without an exception, the set-up, the fetch and the
    clustering command of this run went through; in the world the
    clustering command left, both outputs pass the check (they are there
    and not empty); and after the clustering command exactly six processes
    were started: [gzip] and the copy for the FASTA output, for the CSV
    output and for the log file, in this order. *)
Theorem finished_run_has_published
    (tool : nat -> list string -> option string -> gmap string node -> ProcOut)
    (format_tb : exn -> list string) (uuid8 elapsed : string)
    (args : Args) (w0 w' : World) :
  main tool format_tb uuid8 elapsed args w0 = (w', Ok tt) ->
  exists (w1 wf w3 : World) (read_fps : string),
    init_run uuid8 args w0 = (w1, Ok tt)
    /\ get_reads_from_url tool (a_input args) (workspace uuid8 args) w1
       = (wf, Ok read_fps)
    /\ run_cmds0 tool (swarm_command uuid8 args read_fps)
         (logged ["FASTA output: " +:+ fasta_out uuid8 args;
                  "CSV output: " +:+ csv_out uuid8 args] wf)
       = (w3, Ok RetNone)
    /\ output_ok (fs w3) (fasta_out uuid8 args) = true
    /\ output_ok (fs w3) (csv_out uuid8 args) = true
    /\ map sp_argv (spawned w')
       = map sp_argv (spawned w3)
         ++ publish_commands (a_output_folder args) (fasta_out uuid8 args)
         ++ publish_commands (a_output_folder args) (csv_out uuid8 args)
         ++ publish_commands (a_output_folder args) (log_fp uuid8 args).
Proof.
  unfold main. intros H.
  apply bind_inv in H as (w1 & [] & Hinit & H).
  apply bind_inv in H as (wf & read_fps & Hfetch & H).
  apply try_cleanup_inv in Hfetch.
  apply bind_inv in H as (wa & [] & Hla & H).
  apply bind_inv in H as (wb & [] & Hlb & H).
  injection Hla as <-. injection Hlb as <-.
  apply bind_inv in H as (w3 & v & Hswarm & H).
  apply try_cleanup_inv in Hswarm.
  assert (Hv : v = RetNone).
  { rewrite run_cmds0_spec in Hswarm. cbn zeta in Hswarm.
    destruct (p_code _ =? 0); by inversion Hswarm. }
  subst v.
  apply bind_inv in H as (wc & [] & Hlog & H).
  apply bind_inv in H as (wd & [] & Hcheck & H).
  rewrite verify_outputs in Hcheck.
  injection Hlog as <-. cbn [fs] in Hcheck.
  destruct (output_ok (fs w3) (fasta_out uuid8 args)) eqn:Hfa; [|discriminate].
  destruct (output_ok (fs w3) (csv_out uuid8 args)) eqn:Hcsv; [|discriminate].
  injection Hcheck as <-.
  cbn [for_each] in H.
  apply bind_inv in H as (p1 & [] & H1 & H).
  apply bind_inv in H as (p2 & [] & H2 & H).
  apply bind_inv in H as (p3 & [] & H3 & H).
  injection H as <-.
  apply return_results_ok in H1, H2, H3. cbn [spawned] in H1.
  exists w1, wf, w3, read_fps.
  split; [exact Hinit|]. split; [exact Hfetch|].
  split.
  { rewrite <- Hswarm. f_equal. unfold logged. cbn [fs log spawned stack_room].
    by rewrite <- app_assoc. }
  split; [exact Hfa|]. split; [exact Hcsv|].
  rewrite H3, H2, H1. by rewrite <- !app_assoc.
Qed.

Lemma finished_run_has_published_witness :
  exists (w' w1 wf w3 : World),
    lab_run lab_fine "/data/reads.fasta" = (w', 0)
    /\ init_run "ab12cd34" (lab_args "/data/reads.fasta") host = (w1, Ok tt)
    /\ get_reads_from_url (lab lab_fine) "/data/reads.fasta" "/share/ab12cd34" w1
       = (wf, Ok "/share/ab12cd34/reads.fasta")
    /\ output_ok (fs w3) "/share/ab12cd34/S1.swarm.fasta" = true
    /\ output_ok (fs w3) "/share/ab12cd34/S1.swarm.csv" = true
    /\ map sp_argv (spawned w')
       = map sp_argv (spawned w3)
         ++ [["gzip"; "/share/ab12cd34/S1.swarm.fasta"];
             ["mv"; "/share/ab12cd34/S1.swarm.fasta.gz"; "/out"];
             ["gzip"; "/share/ab12cd34/S1.swarm.csv"];
             ["mv"; "/share/ab12cd34/S1.swarm.csv.gz"; "/out"];
             ["gzip"; "/share/ab12cd34/S1.log.txt"];
             ["mv"; "/share/ab12cd34/S1.log.txt.gz"; "/out"]].
Proof.
  assert (Hmain : main (lab lab_fine) lab_tb "ab12cd34" "12.5"
                    (lab_args "/data/reads.fasta") host
                  = (fst (lab_run lab_fine "/data/reads.fasta"), Ok tt))
    by (vm_compute; reflexivity).
  destruct (finished_run_has_published _ _ _ _ _ _ _ Hmain)
    as (w1 & wf & w3 & read_fps & Hinit & Hfetch & _ & Hfa & Hcsv & Hpub).
  assert (Hw1 : w1 = local_start).
  { assert (E : init_run "ab12cd34" (lab_args "/data/reads.fasta") host
                = (local_start, Ok tt)) by (vm_compute; reflexivity).
    rewrite E in Hinit. by inversion Hinit. }
  subst w1.
  assert (Hrf : read_fps = "/share/ab12cd34/reads.fasta").
  { assert (E : snd (get_reads_from_url (lab lab_fine) "/data/reads.fasta"
                       "/share/ab12cd34" local_start)
                = Ok "/share/ab12cd34/reads.fasta") by (vm_compute; reflexivity).
    change (workspace "ab12cd34" (lab_args "/data/reads.fasta"))
      with "/share/ab12cd34" in Hfetch.
    change (a_input (lab_args "/data/reads.fasta")) with "/data/reads.fasta" in Hfetch.
    rewrite Hfetch in E. by inversion E. }
  subst read_fps.
  exists (fst (lab_run lab_fine "/data/reads.fasta")), local_start, wf, w3.
  split; [vm_compute; reflexivity|].
  split; [exact Hinit|]. split; [exact Hfetch|].
  split; [exact Hfa|]. split; [exact Hcsv|exact Hpub].
Defined.

(** ** The exit status of a run *)

Lemma status_one_bind {A B} (m : M A) (k : A -> M B) :
  status_one m -> (forall a, status_one (k a)) -> status_one (bind m k).
Proof.
  intros Hm Hk w w' e. unfold bind.
  destruct (m w) as [w1 [a|e1]] eqn:E.
  - apply Hk.
  - intros [= <- <-]. exact (Hm _ _ _ E).
Qed.

Lemma status_one_try {A} (m : M A) (h : exn -> M A) :
  (forall e, status_one (h e)) -> status_one (try_except m h).
Proof.
  intros Hh w w' e. unfold try_except.
  destruct (m w) as [w1 [a|e1]]; [discriminate|apply Hh].
Qed.

Lemma status_one_ret {A} (a : A) : status_one (ret a).
Proof. intros w w' e. discriminate. Qed.

Lemma status_one_logging (line : string) : status_one (logging_info line).
Proof. intros w w' e. discriminate. Qed.

Lemma status_one_assert (c : bool) (msg : string) : status_one (py_assert c msg).
Proof. intros w w' e. destruct c; [discriminate|]. by intros [= <- <-]. Qed.

Lemma status_one_for_each {A} (l : list A) (body : A -> M unit) :
  (forall x, status_one (body x)) -> status_one (for_each l body).
Proof.
  intros Hb. induction l as [|x l IH]; cbn [for_each].
  - apply status_one_ret.
  - apply status_one_bind; [apply Hb|]. intros _. exact IH.
Qed.

Lemma status_one_path_exists (p : string) : status_one (Os.path_exists p).
Proof. intros w w' e. discriminate. Qed.

Lemma status_one_stat_size (p : string) : status_one (Os.stat_size p).
Proof.
  intros w w' e. unfold Os.stat_size, bind, get_fs, ret, raise.
  destruct (Os.follow (fs w) p) as [[| |]|]; try discriminate.
  by intros [= <- <-].
Qed.

Lemma status_one_mkdir (p : string) : status_one (Os.mkdir p).
Proof.
  intros w w' e. unfold Os.mkdir, bind, get_fs, put_fs, raise.
  destruct (fs w !! p); [|discriminate]. by intros [= <- <-].
Qed.

Lemma status_one_open_a (p : string) : status_one (Os.open_a p).
Proof.
  intros w w' e. unfold Os.open_a, bind, get_fs, put_fs, ret, raise.
  destruct (fs w !! p) as [[| |]|]; try discriminate.
  by intros [= <- <-].
Qed.

Lemma status_one_run_cmds0
    (tool : nat -> list string -> option string -> gmap string node -> ProcOut)
    (cmd : list string) :
  status_one (run_cmds0 tool cmd).
Proof.
  intros w w' e. rewrite run_cmds0_spec. cbn zeta.
  destruct (p_code _ =? 0); [discriminate|]. by intros [= <- <-].
Qed.

Lemma status_one_return_results
    (tool : nat -> list string -> option string -> gmap string node -> ProcOut)
    (fp output_folder : string) (gzip : bool) :
  status_one (return_results tool fp output_folder gzip).
Proof.
  unfold return_results. apply status_one_bind.
  - destruct gzip; [|apply status_one_ret].
    apply status_one_bind; [apply status_one_run_cmds0|].
    intros _. apply status_one_ret.
  - intros fp'. destruct (Py.startswith "s3://" output_folder);
      (apply status_one_bind; [apply status_one_run_cmds0|]);
      intros _; apply status_one_ret.
Qed.

Lemma status_one_cleanup {A} (format_tb : exn -> list string) (exc : exn) (temp : string) :
  status_one (exit_and_clean_up (A := A) format_tb exc temp).
Proof.
  intros w w' e H.
  destruct (exit_and_clean_up_raises (A := A) format_tb exc temp w) as (w2 & e2 & H2 & Hs).
  rewrite H2 in H. by injection H as <- <-.
Qed.

(** X14.  The exit status of a run is 0 or 1 and nothing else: 0 exactly
    when the main program reaches its end, 1 for every failure, whichever
    stage fails and whatever exit code the failing command had. *)
Theorem run_exits_with_zero_or_one
    (tool : nat -> list string -> option string -> gmap string node -> ProcOut)
    (format_tb : exn -> list string) (uuid8 elapsed : string)
    (args : Args) (w : World) :
  snd (run_script tool format_tb uuid8 elapsed args w)
  = match snd (main tool format_tb uuid8 elapsed args w) with
    | Ok _ => 0
    | Raised _ => 1
    end.
Proof.
  assert (Hmain : status_one (main tool format_tb uuid8 elapsed args)).
  { unfold main, init_run.
    repeat first
      [ apply status_one_cleanup
      | apply status_one_logging
      | apply status_one_assert
      | apply status_one_path_exists
      | apply status_one_stat_size
      | apply status_one_mkdir
      | apply status_one_open_a
      | apply status_one_return_results
      | apply status_one_try; intros ?
      | apply status_one_for_each; intros ?
      | apply status_one_bind; [|intros ?] ]. }
  unfold run_script.
  destruct (main tool format_tb uuid8 elapsed args w) as [w' [[]|e]] eqn:E; cbn [snd].
  - reflexivity.
  - exact (Hmain _ _ _ E).
Qed.

(** ** The path handed to the clustering command *)

(** X15.  Whatever [get_reads_from_url] returns is a non-empty path whose
    last character is neither [q] nor [Q], for every input, every set of
    tools and every state of the file system: a path that ends in one of
    the two comes back with an [a] in its place. *)
Theorem reads_path_never_ends_in_q
    (tool : nat -> list string -> option string -> gmap string node -> ProcOut)
    (input_str temp_folder : string) (w w' : World) (r : string) :
  get_reads_from_url tool input_str temp_folder w = (w', Ok r) ->
  exists c : ascii,
    Py.last_char r = Some c /\ c <> "q"%char /\ c <> "Q"%char.
Proof.
  unfold get_reads_from_url. intros H.
  apply bind_inv in H as (w1 & p & _ & H).
  unfold normalize_reads in H.
  apply bind_inv in H as (w2 & u & _ & H).
  destruct (Py.last_char u) as [c|] eqn:Hlast; [|discriminate].
  destruct (Py.in_chars c ["q"%char; "Q"%char]) eqn:Hq.
  - apply bind_inv in H as (w3 & [] & _ & H).
    apply bind_inv in H as (w4 & v & _ & H).
    injection H as _ <-.
    exists "a"%char. rewrite last_char_snoc. by split.
  - injection H as _ <-. exists c. split; [exact Hlast|].
    split; intros ->; discriminate.
Qed.

Lemma reads_path_never_ends_in_q_witness :
  exists (w' : World) (c : ascii),
    get_reads_from_url (lab lab_fine) "sra://SRR000001" "/share/ab12cd34" sra_start
    = (w', Ok "/share/ab12cd34/SRR000001.fasta")
    /\ Py.last_char "/share/ab12cd34/SRR000001.fasta" = Some c
    /\ c <> "q"%char /\ c <> "Q"%char.
Proof.
  assert (H : get_reads_from_url (lab lab_fine) "sra://SRR000001" "/share/ab12cd34"
                sra_start
              = (fst (get_reads_from_url (lab lab_fine) "sra://SRR000001"
                        "/share/ab12cd34" sra_start),
                 Ok "/share/ab12cd34/SRR000001.fasta"))
    by (vm_compute; reflexivity).
  destruct (reads_path_never_ends_in_q _ _ _ _ _ _ H) as (c & Hc).
  eexists _, c. split; [exact H|exact Hc].
Defined.

(** X16.  A [.gz] path is decompressed before anything else, and a failed
    decompression ends the normalisation: when [pigz -d] exits non-zero the
    call raises "Exit code <c>" with [pigz] the only process started, so
    the converter is not run, whatever the name under the [.gz] is. *)
Theorem failed_decompression_stops
    (tool : nat -> list string -> option string -> gmap string node -> ProcOut)
    (local_path : string) (w : World) :
  let code := p_code (tool (length (spawned w)) ["pigz"; "-d"; local_path] None (fs w)) in
  Py.endswith ".gz" local_path = true ->
  code <> 0 ->
  exists w',
    normalize_reads tool local_path w
    = (w', Raised (AssertionError ("Exit code " +:+ Py.str_int code)))
    /\ spawned w' = spawned w ++ [Spawn ["pigz"; "-d"; local_path] None].
Proof.
  intros code Hgz Hc. unfold normalize_reads. rewrite Hgz.
  unfold bind at 1. unfold bind at 1. unfold bind at 1.
  cbn [logging_info]. rewrite run_cmds0_spec. cbn zeta. cbn [fs spawned stack_room].
  fold code. destruct (Z.eqb_spec code 0) as [|_]; [contradiction|].
  eexists. split; reflexivity.
Qed.

Lemma failed_decompression_stops_witness :
  Py.endswith ".gz" "/share/ab12cd34/reads.fastq.gz" = true
  /\ exists w',
       normalize_reads (flaky 9 2) "/share/ab12cd34/reads.fastq.gz" host
       = (w', Raised (AssertionError "Exit code 2"))
       /\ spawned w' = [Spawn ["pigz"; "-d"; "/share/ab12cd34/reads.fastq.gz"] None].
Proof.
  assert (Hgz : Py.endswith ".gz" "/share/ab12cd34/reads.fastq.gz" = true)
    by (vm_compute; reflexivity).
  split; [exact Hgz|].
  apply (failed_decompression_stops (flaky 9 2) "/share/ab12cd34/reads.fastq.gz" host Hgz).
  vm_compute. discriminate.
Defined.

(** ** [get_sra]: the exit code of the concatenation *)

Lemma bind_ext {A B} (m m' : M A) (k k' : A -> M B) (w : World) :
  m w = m' w -> (forall a w1, k a w1 = k' a w1) -> bind m k w = bind m' k' w.
Proof.
  intros Hm Hk. unfold bind. rewrite Hm.
  destruct (m' w) as [w1 [a|e]]; [apply Hk|reflexivity].
Qed.

Lemma run_cmds0_redirected (code : Z) (err : string)
    (tool : nat -> list string -> option string -> gmap string node -> ProcOut)
    (cmd : list string) (w : World) :
  run_cmds0 (redirected_exit code err tool) cmd w = run_cmds0 tool cmd w.
Proof. by rewrite !run_cmds0_spec. Qed.

Lemma Popen_to_redirected {B} (code : Z) (err : string)
    (tool : nat -> list string -> option string -> gmap string node -> ProcOut)
    (argv : list string) (path : string) (k k' : M B) (w : World) :
  (forall w1, k w1 = k' w1) ->
  (Popen_to (redirected_exit code err tool) argv path ;; k) w
  = (Popen_to tool argv path ;; k') w.
Proof.
  intros Hk. unfold Popen_to, Popen, Os.open_wt, Os.write_out.
  unfold bind, get_fs, put_fs, ret, raise, redirected_exit. cbn.
  destruct (fs w !! path) as [[| |]|]; cbn; try apply Hk; reflexivity.
Qed.

(** X17.  [get_sra] never looks at how the concatenation ended.  The shell
    that runs [cat] is the one process started with its standard output
    sent to a file; let it exit with any code and write anything to its
    standard error, and [get_sra] does what it does when that process exits
    0: the same result or exception, the same files removed and moved, the
    same log. *)
Theorem get_sra_ignores_cat_exit_code
    (tool : nat -> list string -> option string -> gmap string node -> ProcOut)
    (code : Z) (err : string) (accession temp_folder : string) (w : World) :
  get_sra (redirected_exit code err tool) accession temp_folder w
  = get_sra tool accession temp_folder w.
Proof.
  unfold get_sra. apply bind_ext.
  - unfold sra_download, set_up_sra_cache_folder.
    repeat first
      [ reflexivity
      | apply run_cmds0_redirected
      | apply bind_ext; [|intros ? ?] ].
  - intros _ w1. unfold sra_combine. cbn zeta.
    apply bind_ext; [reflexivity|]. intros names w2.
    apply bind_ext; [reflexivity|]. intros _ w3.
    apply bind_ext; [reflexivity|]. intros _ w4.
    apply Popen_to_redirected. intros w5.
    repeat first
      [ reflexivity
      | apply run_cmds0_redirected
      | apply bind_ext; [|intros ? ?] ].
Qed.
